(** * F3 platform: the agent event stream, its consumer and its producers

    A shallow embedding of
    - [src/lib/types.ts]: the event vocabulary and the hook state;
    - [src/hooks/use-agent.ts]: the [useAgent] hook, its event switch and
      [sendMessage];
    - the excerpts of [backend/server/orchestrator.py] and
      [backend/server/main.py] quoted in the implementation notes;
    - the admission controller, the intent router and the generation
      stage, which the repository documents but does not ship, modelled
      from the specification.  *)

From Stdlib Require Import ZArith String Ascii List Bool Lia.
From stdpp Require Import base option list strings gmap pretty.
Import ListNotations.

Local Open Scope string_scope.
Local Open Scope Z_scope.

(* ===================================================================== *)
(** ** [src/lib/types.ts] *)
(* ===================================================================== *)

Module ConversationMessage.
Inductive kind := user_prompt | chat_response | progress | narrative.

Record t := mk {
  id : string;
  type : kind;
  content : string;
  timestamp : Z;
}.
End ConversationMessage.

Module Types.

(** [intent: 'chat' | 'code'] *)
Inductive Intent := chat | code.

Definition Intent_eqb (a b : Intent) : bool :=
  match a, b with
  | chat, chat | code, code => true
  | _, _ => false
  end.

(** [export type AgentStreamEvent = ...], one constructor per member of
    the union, with the fields of that member. *)
Inductive AgentStreamEvent :=
| pipeline_started
| intent_classified (intent : Intent)
| chat_chunk (content : string)
| design_started
| design_phase (details : string)
| design_completed (files : list string)
| code_started
| code_file_started (file : string)
| code_chunk (content : string) (file : string)
| code_completed (files_generated : option Z) (error : option string)
| file_create (path : string)
| file_chunk (path : string) (content : string)
| file_narrative (path : string) (narrative : string)
| file_complete (path : string)
| pipeline_completed.

(** The string literal of the [event] field of each member. *)
Definition discriminant (e : AgentStreamEvent) : string :=
  match e with
  | pipeline_started => "pipeline.started"
  | intent_classified _ => "intent.classified"
  | chat_chunk _ => "chat.chunk"
  | design_started => "design.started"
  | design_phase _ => "design.phase"
  | design_completed _ => "design.completed"
  | code_started => "code.started"
  | code_file_started _ => "code.file_started"
  | code_chunk _ _ => "code.chunk"
  | code_completed _ _ => "code.completed"
  | file_create _ => "file.create"
  | file_chunk _ _ => "file.chunk"
  | file_narrative _ _ => "file.narrative"
  | file_complete _ => "file.complete"
  | pipeline_completed => "pipeline.completed"
  end.

(** The members of the union, in declaration order. *)
Definition AgentStreamEvent_discriminants : list string :=
  [ "pipeline.started"; "intent.classified"; "chat.chunk";
    "design.started"; "design.phase"; "design.completed";
    "code.started"; "code.file_started"; "code.chunk"; "code.completed";
    "file.create"; "file.chunk"; "file.narrative"; "file.complete";
    "pipeline.completed" ].

(** JSON values, as far as the event objects need them. *)
Inductive Json :=
| JString (s : string)
| JNumber (n : Z)
| JArray (xs : list string).

Definition Intent_literal (i : Intent) : string :=
  match i with chat => "chat" | code => "code" end.

Definition optional {A} (key : string) (f : A -> Json) (o : option A)
  : list (string * Json) :=
  match o with Some a => [(key, f a)] | None => [] end.

(** The object of each member: its [event] field and its own fields;
    an optional field ([files_generated?], [error?]) is present only
    when it is set. *)
Definition to_object (e : AgentStreamEvent) : list (string * Json) :=
  ("event", JString (discriminant e)) ::
  match e with
  | pipeline_started | design_started | code_started
  | pipeline_completed => []
  | intent_classified i => [("intent", JString (Intent_literal i))]
  | chat_chunk c => [("content", JString c)]
  | design_phase d => [("details", JString d)]
  | design_completed fs => [("files", JArray fs)]
  | code_file_started f => [("file", JString f)]
  | code_chunk c f => [("content", JString c); ("file", JString f)]
  | code_completed n err =>
      optional "files_generated" JNumber n ++ optional "error" JString err
  | file_create p => [("path", JString p)]
  | file_chunk p c => [("path", JString p); ("content", JString c)]
  | file_narrative p n => [("path", JString p); ("narrative", JString n)]
  | file_complete p => [("path", JString p)]
  end.

Fixpoint field (key : string) (o : list (string * Json)) : option Json :=
  match o with
  | [] => None
  | (k, v) :: o' => if String.eqb k key then Some v else field key o'
  end.

Record NarrativeBlock := mkBlock {
  block_id : nat;            (* [id: number]; [type] is always 'narrative' *)
  block_content : string;
}.

(** [export interface AgentState] *)
Record AgentState := mkState {
  isStreaming : bool;
  intent : option Intent;
  conversationHistory : list ConversationMessage.t;
  currentChatMessage : string;
  currentProgress : option string;
  narrativeBlocks : list NarrativeBlock;
  files : gmap string string;
  error : option string;
  activeFile : option string;
}.

End Types.


(* ===================================================================== *)
(** ** [src/hooks/use-agent.ts] *)
(* ===================================================================== *)

Module UseAgent.
Import Types.

(** What [JSON.parse(data)] hands to the switch: an object of one of the
    declared members, or an object whose [event] field is a string that
    is the literal of no declared member (the annotation
    [: AgentStreamEvent] checks nothing at run time).  An object that
    carries a declared literal is taken to have that member's fields;
    payloads that parse to something else than an object are left out. *)
Inductive WireEvent :=
| Typed (e : AgentStreamEvent)
| Untyped (event : string).

Definition event_of (e : WireEvent) : string :=
  match e with
  | Typed e => discriminant e
  | Untyped d => d
  end.

(** The [case] labels of [switch (event.event)], in source order. *)
Definition switch_cases : list string :=
  [ "intent.classified"; "chat.chunk"; "design.phase"; "design.completed";
    "code.started"; "code.file_started"; "code.chunk"; "file.create";
    "file.chunk"; "file.narrative"; "pipeline.completed" ].

(** The hook's surroundings: the React state cell, the number of
    [Date.now()] calls made so far, what was written with
    [console.error], and the messages posted to [API_URL] so far. *)
Record World := mkWorld {
  state : AgentState;
  ticks : nat;
  console : list string;
  requests : list string;
}.

(** A computation either completes normally or throws. *)
Inductive Completion (A : Type) :=
| Normal (a : A)
| Throw.
Arguments Normal {A} a.
Arguments Throw {A}.

Definition Eff (A : Type) : Type := World -> Completion A * World.

Definition ret {A} (a : A) : Eff A := fun w => (Normal a, w).

Definition bind {A B} (m : Eff A) (k : A -> Eff B) : Eff B :=
  fun w =>
    match m w with
    | (Normal a, w') => k a w'
    | (Throw, w') => (Throw, w')
    end.

Definition throw {A} : Eff A := fun w => (Throw, w).

(** [try { body } catch { handler }] *)
Definition try_catch {A} (body handler : Eff A) : Eff A :=
  fun w =>
    match body w with
    | (Normal a, w') => (Normal a, w')
    | (Throw, w') => handler w'
    end.

(** [try { body } finally { finalizer }]: the finalizer runs on both
    completions and the completion of the body is kept. *)
Definition try_finally {A} (body : Eff A) (finalizer : Eff unit) : Eff A :=
  fun w =>
    match body w with
    | (c, w') =>
        match finalizer w' with
        | (Normal _, w'') => (c, w'')
        | (Throw, w'') => (Throw, w'')
        end
    end.

Notation "'do' x <- m ; k" := (bind m (fun x => k))
  (at level 10, x name, m at level 100, k at level 200).
Notation "'run' m ; k" := (bind m (fun _ => k))
  (at level 10, m at level 100, k at level 200).

Definition console_error (msg : string) : Eff unit :=
  fun w =>
    (Normal tt, mkWorld (state w) (ticks w) (console w ++ [msg]) (requests w)).

(** Field updates of [{ ...prev, field: value }]. *)
Definition with_isStreaming (b : bool) (s : AgentState) : AgentState :=
  mkState b (intent s) (conversationHistory s) (currentChatMessage s)
    (currentProgress s) (narrativeBlocks s) (files s) (error s)
    (activeFile s).
Definition with_intent (i : option Intent) (s : AgentState) : AgentState :=
  mkState (isStreaming s) i (conversationHistory s) (currentChatMessage s)
    (currentProgress s) (narrativeBlocks s) (files s) (error s)
    (activeFile s).
Definition with_conversationHistory (h : list ConversationMessage.t)
  (s : AgentState) : AgentState :=
  mkState (isStreaming s) (intent s) h (currentChatMessage s)
    (currentProgress s) (narrativeBlocks s) (files s) (error s)
    (activeFile s).
Definition with_currentChatMessage (m : string) (s : AgentState)
  : AgentState :=
  mkState (isStreaming s) (intent s) (conversationHistory s) m
    (currentProgress s) (narrativeBlocks s) (files s) (error s)
    (activeFile s).
Definition with_currentProgress (p : option string) (s : AgentState)
  : AgentState :=
  mkState (isStreaming s) (intent s) (conversationHistory s)
    (currentChatMessage s) p (narrativeBlocks s) (files s) (error s)
    (activeFile s).
Definition with_narrativeBlocks (b : list NarrativeBlock) (s : AgentState)
  : AgentState :=
  mkState (isStreaming s) (intent s) (conversationHistory s)
    (currentChatMessage s) (currentProgress s) b (files s) (error s)
    (activeFile s).
Definition with_files (f : gmap string string) (s : AgentState)
  : AgentState :=
  mkState (isStreaming s) (intent s) (conversationHistory s)
    (currentChatMessage s) (currentProgress s) (narrativeBlocks s) f
    (error s) (activeFile s).
Definition with_error (e : option string) (s : AgentState) : AgentState :=
  mkState (isStreaming s) (intent s) (conversationHistory s)
    (currentChatMessage s) (currentProgress s) (narrativeBlocks s) (files s)
    e (activeFile s).
Definition with_activeFile (a : option string) (s : AgentState)
  : AgentState :=
  mkState (isStreaming s) (intent s) (conversationHistory s)
    (currentChatMessage s) (currentProgress s) (narrativeBlocks s) (files s)
    (error s) a.

(** [const initialState: AgentState] *)
Definition initialState : AgentState :=
  mkState false None [] "" None [] ∅ None None.

(** [newState.intent === 'chat'] and [=== 'code'] *)
Definition intent_is (i : Intent) (s : AgentState) : bool :=
  match intent s with
  | Some j => Intent_eqb i j
  | None => false
  end.

(** [history.find(m => m.id === key)], as a truth value. *)
Definition find_id (key : string) (h : list ConversationMessage.t) : bool :=
  existsb (fun m => String.eqb (ConversationMessage.id m) key) h.

(** [map.get(key) || ''] *)
Definition get_or_empty (m : gmap string string) (key : string) : string :=
  match m !! key with
  | Some c => c
  | None => ""
  end.

Definition LF : ascii := "010"%char.

Section Hook.

(** The clock behind [Date.now()]: the value of its n-th call. *)
Variable Date_now : nat -> Z.

(** [JSON.parse]; [None] when it throws. *)
Variable JSON_parse : string -> option WireEvent.

Definition now : Eff Z :=
  fun w => (Normal (Date_now (ticks w)),
            mkWorld (state w) (S (ticks w)) (console w) (requests w)).

(** [setState(prev => ...)]: the updaters of one hook are applied in the
    order of the calls, each to the result of the one before.  An updater
    may also hand a value back to the closure it came from. *)
Definition setState {A} (updater : AgentState -> Eff (AgentState * A))
  : Eff A :=
  fun w =>
    match updater (state w) w with
    | (Normal (s', a), w') =>
        (Normal a, mkWorld s' (ticks w') (console w') (requests w'))
    | (Throw, w') => (Throw, w')
    end.

(** The body of the updater passed to [setState] for one event.  The
    closure variable [accumulatedResponse] is read and assigned inside it,
    so it is passed in and returned. *)
Definition on_event (event : WireEvent) (currentResponseId : string)
  (accumulatedResponse : string) (prev : AgentState)
  : Eff (AgentState * string) :=
  let newState := prev in
  match event with
  | Typed (intent_classified i) =>
      ret (with_intent (Some i) newState, accumulatedResponse)
  | Typed (chat_chunk content) =>
      if intent_is chat newState then
        ret (with_currentChatMessage
               (currentChatMessage newState ++ content) newState,
             accumulatedResponse ++ content)
      else ret (newState, accumulatedResponse)
  | Typed (design_phase details) =>
      if intent_is code newState then
        let newState := with_currentProgress (Some details) newState in
        if negb (find_id ("progress-" ++ details)
                   (conversationHistory newState)) then
          do t1 <- now;
          do t2 <- now;
          ret (with_conversationHistory
                 (conversationHistory newState ++
                  [ConversationMessage.mk ("progress-" ++ pretty t1)
                     ConversationMessage.progress details t2])
                 newState,
               accumulatedResponse)
        else ret (newState, accumulatedResponse)
      else ret (newState, accumulatedResponse)
  | Typed (design_completed _) =>
      if intent_is code newState then
        ret (with_currentProgress
               (Some "Design complete, generating code...") newState,
             accumulatedResponse)
      else ret (newState, accumulatedResponse)
  | Typed code_started =>
      if intent_is code newState then
        ret (with_currentProgress (Some "Generating code...") newState,
             accumulatedResponse)
      else ret (newState, accumulatedResponse)
  | Typed (code_file_started file) =>
      let filesWithNewFile := <[file := ""]> (files prev) in
      ret (with_activeFile (Some file) (with_files filesWithNewFile newState),
           accumulatedResponse)
  | Typed (code_chunk content file) =>
      let updatedFiles := files prev in
      let currentContent := get_or_empty updatedFiles file in
      ret (with_files (<[file := currentContent ++ content]> updatedFiles)
             newState,
           accumulatedResponse)
  | Typed (file_create path) =>
      let filesWithCreatedFile := <[path := ""]> (files prev) in
      ret (with_activeFile (Some path)
             (with_files filesWithCreatedFile newState),
           accumulatedResponse)
  | Typed (file_chunk path content) =>
      let filesWithChunk := files prev in
      let fileContent := get_or_empty filesWithChunk path in
      ret (with_files (<[path := fileContent ++ content]> filesWithChunk)
             newState,
           accumulatedResponse)
  | Typed (file_narrative _ narrative) =>
      if intent_is code newState then
        let newBlock :=
          mkBlock (length (narrativeBlocks prev)) narrative in
        let newState :=
          with_narrativeBlocks (narrativeBlocks prev ++ [newBlock]) newState in
        do t1 <- now;
        do t2 <- now;
        ret (with_conversationHistory
               (conversationHistory newState ++
                [ConversationMessage.mk
                   ("narrative-" ++ pretty t1 ++ "-" ++
                    pretty (block_id newBlock))
                   ConversationMessage.narrative narrative t2])
               newState,
             accumulatedResponse)
      else ret (newState, accumulatedResponse)
  | Typed pipeline_completed =>
      let newState :=
        with_currentProgress None (with_activeFile None newState) in
      if intent_is chat newState
         && negb (String.eqb accumulatedResponse "") then
        do t <- now;
        ret (with_conversationHistory
               (conversationHistory newState ++
                [ConversationMessage.mk currentResponseId
                   ConversationMessage.chat_response accumulatedResponse t])
               newState,
             accumulatedResponse)
      else ret (newState, accumulatedResponse)
  | Typed pipeline_started | Typed design_started
  | Typed (code_completed _ _) | Typed (file_complete _)
  | Untyped _ =>
      (* no [case] and no [default]: the switch falls out *)
      ret (newState, accumulatedResponse)
  end.

(** [s.split('\n\n')]: cut at each blank line, left to right. *)
Fixpoint split_from (piece s : string) : list string :=
  match s with
  | EmptyString => [piece]
  | String c s' =>
      match s' with
      | String c' s'' =>
          if Ascii.eqb c LF && Ascii.eqb c' LF
          then piece :: split_from "" s''
          else split_from (piece ++ String c "") s'
      | EmptyString => [piece ++ String c ""]
      end
  end.

Definition split (s : string) : list string := split_from "" s.

(** One [line] of the [for] loop. *)
Definition on_line (currentResponseId : string) (accumulatedResponse : string)
  (line : string) : Eff string :=
  if String.prefix "data: " line then
    let data := substring 6 (String.length line - 6) line in
    try_catch
      (match JSON_parse data with
       | None => throw
       | Some event =>
           setState (on_event event currentResponseId accumulatedResponse)
       end)
      (run console_error ("Failed to parse event: " ++ data);
       ret accumulatedResponse)
  else ret accumulatedResponse.

(** [for (const line of lines) { ... }] *)
Fixpoint for_lines (currentResponseId : string) (accumulatedResponse : string)
  (lines : list string) : Eff string :=
  match lines with
  | [] => ret accumulatedResponse
  | line :: rest =>
      do acc <- on_line currentResponseId accumulatedResponse line;
      for_lines currentResponseId acc rest
  end.

(** What the successive [await reader.read()] give: a decoded chunk
    and the rest, the end of the body, or a rejection. *)
Inductive ReadableStream :=
| read_done
| read_value (value : string) (next : ReadableStream)
| read_rejects.

(** [while (true) { ... }] *)
Fixpoint read_loop (currentResponseId : string) (buffer : string)
  (accumulatedResponse : string) (reader : ReadableStream) : Eff unit :=
  match reader with
  | read_done => ret tt                        (* [if (done) break;] *)
  | read_rejects => throw
  | read_value value next =>
      let buffer := buffer ++ value in
      let lines := split buffer in
      let buffer := List.last lines "" in          (* [lines.pop() || ''] *)
      let lines := removelast lines in
      do acc <- for_lines currentResponseId accumulatedResponse lines;
      read_loop currentResponseId buffer acc next
  end.

(** The outcome of [await fetch(API_URL, ...)]: a rejection, or a
    response with or without a body. *)
Inductive FetchResult :=
| fetch_rejects
| fetch_resolves (body : option ReadableStream).

Definition fetch (message : string) (net : FetchResult)
  : Eff (option ReadableStream) :=
  fun w =>
    let w' := mkWorld (state w) (ticks w) (console w)
                (requests w ++ [message]) in
    match net with
    | fetch_rejects => (Throw, w')
    | fetch_resolves body => (Normal body, w')
    end.

(** The statements of [sendMessage] before its [try]. *)
Definition announce (message : string) : Eff unit :=
  do t0 <- now;
  let messageId := "msg-" ++ pretty t0 in
  setState (fun prev =>
    do t <- now;
    ret (with_currentProgress None
           (with_currentChatMessage ""
              (with_conversationHistory
                 (conversationHistory prev ++
                  [ConversationMessage.mk messageId
                     ConversationMessage.user_prompt message t])
                 (with_isStreaming true prev))),
         tt)).

(** The [try { ... } catch { ... } finally { ... }] of [sendMessage]. *)
Definition stream (message : string) (net : FetchResult) : Eff unit :=
  try_finally
    (try_catch
       (do body <- fetch message net;
        match body with
        | None => ret tt                       (* [if (!response.body) return;] *)
        | Some reader =>
            do t1 <- now;
            let currentResponseId := "response-" ++ pretty t1 in
            read_loop currentResponseId "" "" reader
        end)
       (setState (fun prev =>
          ret (with_error (Some "Failed to connect to the agent service.")
                 prev, tt))))
    (setState (fun prev => ret (with_isStreaming false prev, tt))).

Definition sendMessage (message : string) (net : FetchResult) : Eff unit :=
  run announce message;
  stream message net.

(** *** [sendMessage] in time

    [setState(updater)] does not run the updater: React queues it and
    applies the queue, in the order of the calls, once the function
    that made them is suspended at an [await] or has returned.
    [setState] above gives the state the updates lead to; what follows
    says when they are applied, taking React to render at every
    suspension, the earliest it can. *)













End Hook.

(** *** Notions used to state the hook's properties *)

(** Modelled from the spec: the frame of section 6, [data: <json>]
    followed by a blank line; the encoder is in [main.py], which is not
    in the repository. *)
Definition frame (json : string) : string :=
  "data: " ++ json ++ String LF (String LF "").

(** The text has no line feed in it, as the output of a JSON encoder. *)
Fixpoint one_line (s : string) : bool :=
  match s with
  | EmptyString => true
  | String c s' => negb (Ascii.eqb c LF) && one_line s'
  end.

Definition history (w : World) : list ConversationMessage.t :=
  conversationHistory (state w).

(** The history of [w'] continues that of [w]. *)
Definition extends (w w' : World) : Prop :=
  history w `prefix_of` history w'.



(** A computation that only ever appends to the history. *)
Definition appending {A} (m : Eff A) : Prop :=
  forall w, extends w (snd (m w)).

(** An updater that keeps the history it is given as a prefix of the one
    it returns, and that leaves the state cell alone while it runs. *)
Definition growing {A} (updater : AgentState -> Eff (AgentState * A))
  : Prop :=
  forall prev w,
    state (snd (updater prev w)) = state w /\
    match fst (updater prev w) with
    | Normal (s', _) => conversationHistory prev `prefix_of` conversationHistory s'
    | Throw => True
    end.

End UseAgent.


(* ===================================================================== *)
(** ** [backend/server/orchestrator.py], as quoted in
       [IMPLEMENTATION_SUMMARY.md] and in the persistence diagnosis *)
(* ===================================================================== *)

Module Orchestrator.
Import Types.

(** The dicts the pipeline yields: the events of the agents that have
    the shape of a member of [AgentStreamEvent]; the other dicts an
    agent may yield, such as the error events the notes speak of, of
    which the orchestrator reads the [event] field only (a dict that
    carries [content] or [file] is taken to be a declared member; dicts
    without a string under [event] are left out); and the orchestrator's
    own [{"event": "file.persisted", "path": file_path}]. *)
Inductive Event :=
| Agent (e : AgentStreamEvent)
| Other (event : string)
| file_persisted (path : string).

Definition object_of (e : Event) : list (string * Json) :=
  match e with
  | Agent a => to_object a
  | Other d => [("event", JString d)]
  | file_persisted p =>
      [("event", JString "file.persisted"); ("path", JString p)]
  end.

(** [event.get(key)] *)
Definition get (key : string) (e : Event) : option Json :=
  field key (object_of e).

(** [event.get("event") == name] *)
Definition is_event (name : string) (e : Event) : bool :=
  match get "event" e with
  | Some (JString d) => String.eqb d name
  | _ => false
  end.

(** The discriminant of a yielded dict. *)
Definition event_name (e : Event) : string :=
  match get "event" e with
  | Some (JString d) => d
  | _ => ""
  end.

(** The dict is one the orchestrator itself yields, in a run whose
    intent is [intent]. *)
Definition own (intent : Intent) (e : Event) : Prop :=
  e = Agent pipeline_started \/ e = Agent (intent_classified intent) \/
  (exists path, e = file_persisted path) \/ e = Agent pipeline_completed.

(** A Python [dict] from paths to text; [items()] goes in insertion
    order, and assigning to a present key keeps its place. *)
Definition dict := list (string * string).

Fixpoint dict_get (key : string) (d : dict) : option string :=
  match d with
  | [] => None
  | (k, v) :: d' => if String.eqb k key then Some v else dict_get key d'
  end.

Fixpoint dict_set (key value : string) (d : dict) : dict :=
  match d with
  | [] => [(key, value)]
  | (k, v) :: d' =>
      if String.eqb k key then (key, value) :: d'
      else (k, v) :: dict_set key value d'
  end.

(** [file_contents.get(file_path, "")] *)
Definition dict_get_or (key default : string) (d : dict) : string :=
  match dict_get key d with
  | Some v => v
  | None => default
  end.

(** The body of [if event.get("event") == "code.chunk": ...]. *)
Definition capture (file_contents : dict) (event : Event) : dict :=
  if is_event "code.chunk" event then
    let file_path := get "file" event in
    let content :=
      match get "content" event with
      | Some (JString c) => c
      | _ => ""
      end in
    match file_path with
    | Some (JString p) =>
        if String.eqb p "" then file_contents     (* [if file_path:] *)
        else dict_set p (dict_get_or p "" file_contents ++ content)
               file_contents
    | _ => file_contents
    end
  else file_contents.

(** [file_path.split('/')[-1]] *)
Fixpoint last_segment_from (piece s : string) : string :=
  match s with
  | EmptyString => piece
  | String c s' =>
      if Ascii.eqb c "/"%char then last_segment_from "" s'
      else last_segment_from (piece ++ String c "") s'
  end.

Definition last_segment (file_path : string) : string :=
  last_segment_from "" file_path.

(** [str(design_plan)] or the accumulated chat text, the third argument
    of [db.add_chat_message]. *)
Inductive Reply :=
| ai_response (text : string)
| str_design_plan (design_plan : option Event).

(** The calls made on [db]. *)
Inductive DbCall :=
| add_chat_message (project_id user_message : string) (reply : Reply)
    (intent : Intent)
| create_file (project_id file_path file_name : string)
| save_code (file_id : Z) (code_content : string).

(** How the iteration of an async generator ends: it returns, or an
    exception comes out of it. *)
Inductive Ending := returned | raised.

(** What one run of the generator leaves behind: the events it yielded
    and the calls it made on the database, both in order, and how it
    ended. *)
Record Run := mkRun {
  yielded : list Event;
  db_calls : list DbCall;
  ending : Ending;
}.

Section Agents.

(** Modelled from the spec: the classification step of
    [run_agent_pipeline], which the quoted excerpts elide; section 4.2
    has the router called once per run and its branch announced by
    [intent.classified] before any other stage event. *)
Variable classify : string -> Intent.

(** The agents, which are not in the repository: the events each one
    yields for its input, and whether it then returns or raises. *)
Variable run_chat_agent : string -> list Event * Ending.
Variable run_designing_agent : string -> list Event * Ending.
Variable run_coding_agent : Event -> string -> list Event * Ending.

(** [db.create_file]: the id of the new record, or nothing. *)
Variable db_create_file : string -> string -> string -> option Z.

(** [ai_response += event.get("content", "")] over the chat events. *)
Definition collect_chat (ai : string) (event : Event) : string :=
  if is_event "chat.chunk" event then
    ai ++ match get "content" event with
          | Some (JString c) => c
          | _ => ""
          end
  else ai.

(** [if event.get("event") == "design.completed": design_plan = event] *)
Definition collect_plan (design_plan : option Event) (event : Event)
  : option Event :=
  if is_event "design.completed" event then Some event else design_plan.

(** [for file_path, file_content in file_contents.items(): ...] *)
Fixpoint persist (project_id : string) (items : dict)
  : list Event * list DbCall :=
  match items with
  | [] => ([], [])
  | (file_path, file_content) :: rest =>
      let file_name := last_segment file_path in
      let r := persist project_id rest in
      match db_create_file project_id file_path file_name with
      | Some file_id =>
          (file_persisted file_path :: fst r,
           create_file project_id file_path file_name ::
           save_code file_id file_content :: snd r)
      | None =>
          (fst r, create_file project_id file_path file_name :: snd r)
      end
  end.

(** The [file_contents] dict once the coding agent's events are through. *)
Definition file_contents_after (events : list Event) : dict :=
  fold_left capture events [].

(** The plan the design stage leaves: the last [design.completed] it
    yielded. *)
Definition design_plan_of (user_message : string) : option Event :=
  fold_left collect_plan (fst (run_designing_agent user_message)) None.

(** The coding stage of a run: [if design_plan:] the events of
    [run_coding_agent(design_plan, user_message)] and how it ended. *)
Definition coding_stage (user_message : string) : list Event * Ending :=
  match design_plan_of user_message with
  | Some plan => run_coding_agent plan user_message
  | None => ([], returned)
  end.

(** The events of the agents that the loops of a run go through, in
    order: those of the chat agent, or those of the designing agent
    followed, when that one returned, by those of the coding stage. *)
Definition forwarded (user_message : string) : list Event :=
  match classify user_message with
  | chat => fst (run_chat_agent user_message)
  | code =>
      (fst (run_designing_agent user_message)
       ++ match snd (run_designing_agent user_message) with
          | returned => fst (coding_stage user_message)
          | raised => []
          end)%list
  end.

(** Some stage of the run raises. *)
Definition stage_raises (user_message : string) : bool :=
  match classify user_message with
  | chat =>
      match snd (run_chat_agent user_message) with
      | raised => true
      | returned => false
      end
  | code =>
      match snd (run_designing_agent user_message),
            snd (coding_stage user_message) with
      | returned, returned => false
      | _, _ => true
      end
  end.

(** [async def run_agent_pipeline(request)], put together from the
    quoted excerpts:
    - [yield {"event": "pipeline.started"}] first and
      [yield {"event": "pipeline.completed"}] last;
    - [if intent == "chat":] every event of [run_chat_agent] is yielded,
      the text of its [chat.chunk] events is collected, then
      [db.add_chat_message(project_id, user_message, ai_response, intent)];
    - [elif intent == "code":] every event of [run_designing_agent] is
      yielded and the last [design.completed] kept as [design_plan];
      [if design_plan:] every event of [run_coding_agent] is yielded and
      its [code.chunk] events are captured in [file_contents]; the files
      are stored, then
      [db.add_chat_message(project_id, user_message, str(design_plan), intent)].
    There is no [try] around the loops: when an agent raises, the
    exception leaves the generator, and what follows the loop is not
    run. *)
Definition run_agent_pipeline (project_id user_message : string) : Run :=
  let intent := classify user_message in
  let head := [Agent pipeline_started; Agent (intent_classified intent)] in
  match intent with
  | chat =>
      let (events, e) := run_chat_agent user_message in
      match e with
      | raised => mkRun (head ++ events) [] raised
      | returned =>
          let text := fold_left collect_chat events "" in
          mkRun (head ++ events ++ [Agent pipeline_completed])
            [add_chat_message project_id user_message (ai_response text)
               chat]
            returned
      end
  | code =>
      let (design, e1) := run_designing_agent user_message in
      match e1 with
      | raised => mkRun (head ++ design) [] raised
      | returned =>
          let design_plan := fold_left collect_plan design None in
          let (coding, e2) :=
            match design_plan with
            | Some plan =>
                run_coding_agent plan user_message  (* [if design_plan:] *)
            | None => ([], returned)
            end in
          match e2 with
          | raised => mkRun (head ++ design ++ coding) [] raised
          | returned =>
              let stored := persist project_id (file_contents_after coding) in
              mkRun (head ++ design ++ coding ++ fst stored
                     ++ [Agent pipeline_completed])
                (snd stored ++
                 [add_chat_message project_id user_message
                    (str_design_plan design_plan) code])
                returned
          end
      end
  end.

End Agents.

(** The text of all [code.chunk] events for one file, in the order of
    the stream. *)
Fixpoint chunks_for (file : string) (events : list Event) : string :=
  match events with
  | [] => ""
  | Agent (code_chunk content f) :: rest =>
      if String.eqb f file then content ++ chunks_for file rest
      else chunks_for file rest
  | _ :: rest => chunks_for file rest
  end.

(** Some [code.chunk] of the events names the file. *)
Fixpoint has_chunk (file : string) (events : list Event) : bool :=
  match events with
  | [] => false
  | Agent (code_chunk _ f) :: rest => String.eqb f file || has_chunk file rest
  | _ :: rest => has_chunk file rest
  end.

(** The content stored for a path: that of the [save_code] call which
    follows the [create_file] call for the path. *)
Fixpoint committed (file_path : string) (calls : list DbCall)
  : option string :=
  match calls with
  | create_file _ p _ :: save_code _ content :: rest =>
      if String.eqb p file_path then Some content
      else committed file_path rest
  | _ :: rest => committed file_path rest
  | [] => None
  end.

(** [if file_record:] for a path, given [db.create_file]. *)
Definition recorded (db_create_file : string -> string -> string -> option Z)
  (project_id file_path : string) : bool :=
  match db_create_file project_id file_path (last_segment file_path) with
  | Some _ => true
  | None => false
  end.





End Orchestrator.


(* ===================================================================== *)
(** ** The admission controller ([backend/server/rate_limiter.py]) *)
(* ===================================================================== *)

Module RateLimiter.

(** Modelled from the spec: the two windows of a [RateBucket] (section
    3); [rate_limiter.py] is not in the repository. *)
Inductive Window := minute | hour.

Definition other (w : Window) : Window :=
  match w with minute => hour | hour => minute end.

(** Modelled from the spec: one window of a bucket, [{count,
    windowStart}] (section 3). *)
Record Counter := mkCounter {
  count : nat;
  windowStart : Z;
}.

(** Modelled from the spec: [RateBucket], the two independent counters
    of one identity (section 3). *)
Record RateBucket := mkBucket {
  minute_window : Counter;
  hour_window : Counter;
}.

Definition counter (w : Window) (b : RateBucket) : Counter :=
  match w with minute => minute_window b | hour => hour_window b end.

(** Modelled from the spec: the two independently configured limits
    and their window lengths, in seconds (section 4.1). *)
Record Config := mkConfig {
  minute_limit : nat;
  minute_length : Z;
  hour_limit : nat;
  hour_length : Z;
}.

Definition limit (cfg : Config) (w : Window) : nat :=
  match w with minute => minute_limit cfg | hour => hour_limit cfg end.

Definition windowLength (cfg : Config) (w : Window) : Z :=
  match w with minute => minute_length cfg | hour => hour_length cfg end.

(** Modelled from the spec: the configuration behind the call
    [get_rate_limiter(requests_per_minute=..., requests_per_hour=...)]
    of [main.py]: N per 60 s and M per 3600 s (section 4.1). *)
Definition get_rate_limiter (requests_per_minute requests_per_hour : nat)
  : Config :=
  mkConfig requests_per_minute 60 requests_per_hour 3600.

(** Modelled from the spec: the result of [check], [Allow |
    Deny(retryAfterSeconds)] (section 4.1). *)
Inductive Decision :=
| Allow
| Deny (retryAfterSeconds : Z).

(** Modelled from the spec: the reset rule of section 4.1, [if now -
    windowStart >= windowLength, reset count=0, windowStart=now for that
    window before evaluating]; [rate_limiter.py] is not in the
    repository. *)
Definition roll (len : Z) (now : Z) (c : Counter) : Counter :=
  if now - windowStart c >=? len then mkCounter 0 now else c.

(** Modelled from the spec: the bucket the controller keeps per
    identity (section 4.1); one that it has not seen yet starts both
    windows at the time of the check. *)
Definition bucket_of (now : Z) (id : string)
  (buckets : gmap string RateBucket) : RateBucket :=
  match buckets !! id with
  | Some b => b
  | None => mkBucket (mkCounter 0 now) (mkCounter 0 now)
  end.

(** Modelled from the spec: the bucket of an identity as a check at
    [now] evaluates it, both windows rolled. *)
Definition bucket_seen (cfg : Config) (now : Z) (id : string)
  (buckets : gmap string RateBucket) : RateBucket :=
  let b := bucket_of now id buckets in
  mkBucket (roll (minute_length cfg) now (minute_window b))
           (roll (hour_length cfg) now (hour_window b)).

(** Modelled from the spec: [count >= limit] (section 4.1). *)
Definition exhausted (cfg : Config) (w : Window) (b : RateBucket) : bool :=
  (limit cfg w <=? count (counter w b))%nat.

(** Modelled from the spec: the remaining wait of a window,
    [windowLength - (now - windowStart)] (section 4.1). *)
Definition remaining (cfg : Config) (w : Window) (now : Z) (b : RateBucket)
  : Z :=
  windowLength cfg w - (now - windowStart (counter w b)).

(** Modelled from the spec: [increment ... count] (section 4.1). *)
Definition bump (c : Counter) : Counter :=
  mkCounter (S (count c)) (windowStart c).

(** Modelled from the spec: [check(clientIdentity) -> Allow |
    Deny(retryAfterSeconds)] of section 4.1: roll both windows; if
    either has [count >= limit], deny with the remaining wait of the
    most exhausted window, the largest one; otherwise increment both
    counts and allow. *)
Definition check (cfg : Config) (now : Z) (id : string)
  (buckets : gmap string RateBucket)
  : Decision * gmap string RateBucket :=
  let b := bucket_seen cfg now id buckets in
  match exhausted cfg minute b, exhausted cfg hour b with
  | false, false =>
      (Allow,
       <[id := mkBucket (bump (minute_window b)) (bump (hour_window b))]>
         buckets)
  | true, false => (Deny (remaining cfg minute now b), <[id := b]> buckets)
  | false, true => (Deny (remaining cfg hour now b), <[id := b]> buckets)
  | true, true =>
      (Deny (Z.max (remaining cfg minute now b) (remaining cfg hour now b)),
       <[id := b]> buckets)
  end.

(** Successive checks of one identity at the given times. *)
Fixpoint checks (cfg : Config) (id : string) (times : list Z)
  (buckets : gmap string RateBucket)
  : list Decision * gmap string RateBucket :=
  match times with
  | [] => ([], buckets)
  | now :: rest =>
      let (d, buckets') := check cfg now id buckets in
      let (ds, buckets'') := checks cfg id rest buckets' in
      (d :: ds, buckets'')
  end.

(** The window [w] of the identity is not exhausted at any of the
    successive checks made at the given times: it is not this window
    that denies one of them. *)
Fixpoint has_room (cfg : Config) (w : Window) (id : string) (times : list Z)
  (buckets : gmap string RateBucket) : bool :=
  match times with
  | [] => true
  | now :: rest =>
      negb (exhausted cfg w (bucket_seen cfg now id buckets))
      && has_room cfg w id rest (snd (check cfg now id buckets))
  end.

(** Modelled from the spec: [rate_limiter.is_allowed], which is not in
    the repository, with the result shape of its call site
    [allowed, message = rate_limiter.is_allowed(client_ip)] and the
    decision of [check]; the message has the form shown in the notes,
    [Rate limit exceeded: 10/10 requests per minute]. *)
Definition is_allowed (cfg : Config) (now : Z) (client_ip : string)
  (buckets : gmap string RateBucket)
  : (bool * string) * gmap string RateBucket :=
  let b := bucket_seen cfg now client_ip buckets in
  let report (w : Window) (unit : string) :=
    "Rate limit exceeded: " ++ pretty (count (counter w b)) ++ "/" ++
    pretty (limit cfg w) ++ " requests per " ++ unit in
  match check cfg now client_ip buckets with
  | (Allow, buckets') => ((true, "OK"), buckets')
  | (Deny _, buckets') =>
      ((false,
        if exhausted cfg minute b then report minute "minute"
        else report hour "hour"),
       buckets')
  end.

End RateLimiter.


(* ===================================================================== *)
(** ** [backend/server/main.py], the endpoint quoted in
       [TESTING_INSTRUCTIONS.md] *)
(* ===================================================================== *)

Module Main.
Import Types.

Inductive Response :=
| JSONResponse (status_code : Z) (content : list (string * Json))
| StreamingResponse (events : list Orchestrator.Event).

Section Endpoint.

(** The limiter behind [rate_limiter.is_allowed(client_ip)], with its
    state and the time of the call. *)
Variable Limiter : Type.
Variable is_allowed : Z -> string -> Limiter -> (bool * string) * Limiter.

(** [agent_event_stream(request)] *)
Variable agent_event_stream : string -> list Orchestrator.Event.

(** [@app.post("/api/agent/stream")] *)
Definition agent_stream_endpoint (now : Z) (request client_ip : string)
  (limiter : Limiter) : Response * Limiter :=
  let '((allowed, message), limiter') := is_allowed now client_ip limiter in
  if negb allowed then
    (JSONResponse 429
       [ ("error", JString "Rate limit exceeded");
         ("message", JString message);
         ("retry_after", JNumber 60) ],
     limiter')
  else (StreamingResponse (agent_event_stream request), limiter').

End Endpoint.

(** The [retry_after] a rejected caller reads from the response. *)
Definition retry_after (r : Response) : option Z :=
  match r with
  | StreamingResponse _ => None
  | JSONResponse _ content =>
      match field "retry_after" content with
      | Some (JNumber n) => Some n
      | _ => None
      end
  end.

Definition status_code_of (r : Response) : Z :=
  match r with
  | StreamingResponse _ => 200
  | JSONResponse status_code _ => status_code
  end.

End Main.


(* ===================================================================== *)
(** ** The intent router and the pipeline stages
       ([backend/server/agents/]), from sections 3, 4.2 and 4.3 *)
(* ===================================================================== *)

Module Pipeline.

(** Modelled from the spec: the two branches of [classify] (section
    4.2); the agents of [backend/server/agents/] are not in the
    repository. *)
Inductive Branch := Conversational | Generative.

(** Modelled from the spec: the kinds of error that reach the stream
    (section 7). *)
Inductive ErrorKind := StageTimeout | StageUpstreamError.

(** Modelled from the spec: the event variants of section 3, as the
    router and the stages of sections 4.2 and 4.3 put them on the
    stream; the code of these is not in the repository.  The events of
    the program itself are [Types.AgentStreamEvent], from [types.ts]:
    [Orchestrator] and [UseAgent] are stated on those. *)
Inductive Event :=
| pipeline_started
| intent_classified (branch : Branch)
| content_delta (text : string)
| stage_phase (text : string)
| plan_completed (paths : list string)
| path_started (path : string)
| artifact_delta (path : string) (text : string)
| path_completed (path : string)
| error (kind : ErrorKind) (message : string)
| pipeline_completed (ok : bool).

(** Modelled from the spec: how a call of the external generation
    capability ends: with its output, with a failure, or with the
    expiry of its timeout (sections 4.2 and 5). *)
Inductive Outcome (A : Type) :=
| Produced (a : A)
| Failed (message : string)
| TimedOut.
Arguments Produced {A} a.
Arguments Failed {A} message.
Arguments TimedOut {A}.

(** Modelled from the spec: how a streaming stage ends, after the
    chunks it did produce (section 4.3). *)
Inductive Ending :=
| Finished
| Broke (kind : ErrorKind) (message : string).

(** Modelled from the spec: [classify(messageText) -> Conversational |
    Generative] of section 4.2; [intent_classifier.py] is not in the
    repository.  The two recognized labels are those its prompt asks
    for, 'chat' and 'code'; any failure, timeout or other output falls
    back to [Conversational]. *)
Definition classify (call : string -> Outcome string)
  (messageText : string) : Branch :=
  match call messageText with
  | Produced label =>
      if String.eqb label "code" then Generative
      else if String.eqb label "chat" then Conversational
      else Conversational                (* an unrecognized output *)
  | Failed _ => Conversational
  | TimedOut => Conversational
  end.

(** Modelled from the spec: what the router puts on the stream: its
    branch, and never an error (section 7, [ClassificationFailed]). *)
Definition router_events (call : string -> Outcome string)
  (messageText : string) : list Event :=
  [intent_classified (classify call messageText)].

(** Modelled from the spec: the external collaborators of one run: the
    classification call, the conversational stage, the planning call
    with its progress phases, and the generation call per path. *)
Record Collaborators := mkCollaborators {
  classifier : string -> Outcome string;
  converse : string -> list string * Ending;
  plan : string -> list string * Outcome (list string);
  generate : string -> string -> list string * Ending;
}.

(** The same collaborators with another classifier. *)
Definition with_classifier (f : string -> Outcome string)
  (c : Collaborators) : Collaborators :=
  mkCollaborators f (converse c) (plan c) (generate c).

(** Modelled from the spec: the [Failed] and [Completed] states of
    section 4.3. *)
Definition close (e : Ending) : list Event :=
  match e with
  | Finished => [pipeline_completed true]
  | Broke kind message => [error kind message; pipeline_completed false]
  end.

(** Modelled from the spec: the [Generating] state of section 4.3: the
    planned paths strictly one after the other, each as
    [path.started], its deltas, [path.completed]; a path whose
    generation breaks stays open and ends the stage. *)
Fixpoint generating (gen : string -> list string * Ending)
  (paths : list string) : list Event * Ending :=
  match paths with
  | [] => ([], Finished)
  | p :: rest =>
      let (chunks, e) := gen p in
      let opened := path_started p :: map (artifact_delta p) chunks in
      match e with
      | Finished =>
          let (events, e') := generating gen rest in
          ((opened ++ path_completed p :: events)%list, e')
      | Broke kind message => (opened, Broke kind message)
      end
  end.

(** Modelled from the spec: the plan must be [an ordered, non-empty
    list of unique paths] (section 4.3). *)
Definition valid_plan (paths : list string) : bool :=
  match paths with
  | [] => false
  | _ => bool_decide (NoDup paths)
  end.

(** Modelled from the spec: the [Planning] state followed by
    [Generating]. *)
Definition planning (c : Collaborators) (message : string) : list Event :=
  let (phases, outcome) := plan c message in
  (map stage_phase phases ++
  match outcome with
  | Produced paths =>
      if valid_plan paths then
        let (events, e) := generating (generate c message) paths in
        plan_completed paths :: events ++ close e
      else close (Broke StageUpstreamError "invalid plan")
  | Failed message => close (Broke StageUpstreamError message)
  | TimedOut => close (Broke StageTimeout "planning timed out")
  end)%list.

(** Modelled from the spec: the [Conversing] state. *)
Definition conversing (c : Collaborators) (message : string) : list Event :=
  let (chunks, e) := converse c message in
  (map content_delta chunks ++ close e)%list.

(** Modelled from the spec: one run of the orchestrator of section 4.3,
    [Started], [Classifying], then the branch. *)
Definition run (c : Collaborators) (message : string) : list Event :=
  (pipeline_started :: router_events (classifier c) message ++
   match classify (classifier c) message with
   | Conversational => conversing c message
   | Generative => planning c message
   end)%list.

Definition is_error (e : Event) : bool :=
  match e with error _ _ => true | _ => false end.

(** The closed event vocabulary of section 3, by discriminant. *)
Definition vocabulary : list string :=
  [ "pipeline.started"; "intent.classified"; "content.delta"; "stage.phase";
    "plan.completed"; "path.started"; "artifact.delta"; "path.completed";
    "error"; "pipeline.completed" ].

End Pipeline.


(* ===================================================================== *)
(** ** Sample runs: the flows of the architecture notes and the free
       tier of the testing instructions *)
(* ===================================================================== *)

Module Examples.
Import Types Orchestrator.

(** The chat flow of the notes: [chat.chunk { content: "Flutter is..." }],
    [chat.chunk { content: " a UI framework..." }]. *)
Definition chat_agent (message : string) : list Event * Ending :=
  ([ Agent (chat_chunk "Flutter is...");
     Agent (chat_chunk " a UI framework...") ],
   returned).

(** The code flow of the notes. *)
Definition designing_agent (message : string) : list Event * Ending :=
  ([ Agent design_started;
     Agent (design_phase "Analyzing request...");
     Agent (design_completed
              ["lib/main.dart"; "lib/widgets/login_button.dart"]) ],
   returned).

Definition coding_agent (design_plan : Event) (message : string)
  : list Event * Ending :=
  ([ Agent code_started;
     Agent (code_file_started "lib/main.dart");
     Agent (code_chunk "import 'package:flutter/material.dart';"
              "lib/main.dart");
     Agent (code_chunk " class LoginButton..." "lib/main.dart");
     Agent (code_file_started "lib/widgets/login_button.dart");
     Agent (code_chunk "..." "lib/widgets/login_button.dart");
     Agent (code_completed (Some 5) None) ],
   returned).

(** A designing agent that gets no plan out of its model: the phases,
    and no [design.completed]. *)
Definition planless_designing_agent (message : string)
  : list Event * Ending :=
  ([ Agent design_started; Agent (design_phase "Analyzing request...") ],
   returned).

(** A coding agent out of which an exception comes after the first
    chunk. *)
Definition raising_coding_agent (design_plan : Event) (message : string)
  : list Event * Ending :=
  ([ Agent code_started;
     Agent (code_file_started "lib/main.dart");
     Agent (code_chunk "import 'package:flutter/material.dart';"
              "lib/main.dart") ],
   raised).

(** An agent that yields an error event, a dict that [types.ts] does
    not declare. *)
Definition erring_chat_agent (message : string) : list Event * Ending :=
  ([ Other "error" ], returned).

Definition db (project_id file_path file_name : string) : option Z :=
  Some (Z.of_nat (String.length file_path)).

(** A database in which [create_file] gives no record for
    [lib/main.dart]. *)
Definition db_without_main (project_id file_path file_name : string)
  : option Z :=
  if String.eqb file_path "lib/main.dart" then None
  else db project_id file_path file_name.

Definition chat_run : Run :=
  run_agent_pipeline (fun _ => chat) chat_agent designing_agent coding_agent
    db "proj_1" "What is Flutter?".

Definition code_run : Run :=
  run_agent_pipeline (fun _ => code) chat_agent designing_agent coding_agent
    db "proj_1" "Build a login button".

(** The code flow when the design stage leaves no plan. *)
Definition planless_run : Run :=
  run_agent_pipeline (fun _ => code) chat_agent planless_designing_agent
    coding_agent db "proj_1" "Build a login button".

(** The code flow when the coding agent raises. *)
Definition raised_run : Run :=
  run_agent_pipeline (fun _ => code) chat_agent designing_agent
    raising_coding_agent db "proj_1" "Build a login button".

(** The code flow when [lib/main.dart] gets no record. *)
Definition unrecorded_run : Run :=
  run_agent_pipeline (fun _ => code) chat_agent designing_agent coding_agent
    db_without_main "proj_1" "Build a login button".

(** The chat flow of an agent that yields an error event. *)
Definition erring_run : Run :=
  run_agent_pipeline (fun _ => chat) erring_chat_agent designing_agent
    coding_agent db "proj_1" "What is Flutter?".

(** [requests_per_minute=10, requests_per_hour=100] *)
Definition free_tier : RateLimiter.Config :=
  RateLimiter.get_rate_limiter 10 100.

Definition client_ip : string := "127.0.0.1".

(** Ten requests at the start of each of the first ten minutes. *)
Definition ten_per_minute : list Z :=
  flat_map (fun k => repeat (60 * Z.of_nat k) 10) (seq 0 10).

(** The limiter after ten requests at time 0. *)
Definition after_ten : gmap string RateLimiter.RateBucket :=
  snd (RateLimiter.checks free_tier client_ip (repeat 0 10) ∅).

(** The limiter after ten requests in each of the first ten minutes. *)
Definition after_hundred : gmap string RateLimiter.RateBucket :=
  snd (RateLimiter.checks free_tier client_ip ten_per_minute ∅).

(** Collaborators of a pipeline run that plans two paths. *)
Definition collaborators : Pipeline.Collaborators :=
  Pipeline.mkCollaborators
    (fun _ => Pipeline.Produced "code")
    (fun _ => (["Hello"], Pipeline.Finished))
    (fun _ => (["Analyzing request..."],
               Pipeline.Produced ["lib/main.dart"; "pubspec.yaml"]))
    (fun _ path => (["// "; path], Pipeline.Finished)).

(** The same with a classifier that times out. *)
Definition collaborators_timeout : Pipeline.Collaborators :=
  Pipeline.with_classifier (fun _ => Pipeline.TimedOut) collaborators.

Definition idle : UseAgent.World :=
  UseAgent.mkWorld UseAgent.initialState 0 [] [].

(** The JSON text of an object whose only field is [event], with a
    discriminant that no member declares. *)
Definition quoted (s : string) : string :=
  String "034"%char (s ++ String "034"%char "").

Definition ping_json : string :=
  "{" ++ quoted "event" ++ ":" ++ quoted "telemetry.ping" ++ "}".

(** A parser that knows this one text. *)
Definition parse_ping (data : string) : option UseAgent.WireEvent :=
  if String.eqb data ping_json then Some (UseAgent.Untyped "telemetry.ping")
  else None.

End Examples.


(* ===================================================================== *)
(** * Properties *)
(* ===================================================================== *)

(** ** Strings *)

Lemma append_nil_r (s : string) : s ++ "" = s.
Proof.
  induction s as [|c s IH]; [reflexivity|].
  change (String c (s ++ "") = String c s). by rewrite IH.
Qed.

Lemma append_assoc (a b c : string) : (a ++ b) ++ c = a ++ (b ++ c).
Proof.
  induction a as [|x a IH]; [reflexivity|].
  change (String x ((a ++ b) ++ c) = String x (a ++ (b ++ c))).
  by rewrite IH.
Qed.

(** ** The hook: effects and the conversation history *)

Section HookFacts.
Import Types UseAgent.

Variable Date_now : nat -> Z.
Variable JSON_parse : string -> option WireEvent.


Lemma extends_refl w : extends w w.
Proof. unfold extends. reflexivity. Qed.

Lemma extends_trans w1 w2 w3 : extends w1 w2 -> extends w2 w3 -> extends w1 w3.
Proof. unfold extends. intros H1 H2. etrans; eassumption. Qed.

Lemma appending_ret {A} (a : A) : appending (ret a).
Proof. intros w. apply extends_refl. Qed.

Lemma appending_throw {A} : appending (@throw A).
Proof. intros w. apply extends_refl. Qed.

Lemma appending_now : appending (now Date_now).
Proof. intros w. unfold extends, history. simpl. reflexivity. Qed.

Lemma appending_console_error msg : appending (console_error msg).
Proof. intros w. unfold extends, history. simpl. reflexivity. Qed.

Lemma appending_bind {A B} (m : Eff A) (k : A -> Eff B) :
  appending m -> (forall a, appending (k a)) -> appending (bind m k).
Proof.
  intros Hm Hk w. unfold bind. specialize (Hm w).
  destruct (m w) as [[a|] w1]; simpl in *; [|exact Hm].
  eapply extends_trans; [exact Hm|apply Hk].
Qed.

Lemma appending_try_catch {A} (body handler : Eff A) :
  appending body -> appending handler -> appending (try_catch body handler).
Proof.
  intros Hb Hh w. unfold try_catch. specialize (Hb w).
  destruct (body w) as [[a|] w1]; simpl in *; [exact Hb|].
  eapply extends_trans; [exact Hb|apply Hh].
Qed.

Lemma appending_try_finally {A} (body : Eff A) (finalizer : Eff unit) :
  appending body -> appending finalizer ->
  appending (try_finally body finalizer).
Proof.
  intros Hb Hf w. unfold try_finally. specialize (Hb w).
  destruct (body w) as [c w1]. specialize (Hf w1).
  destruct (finalizer w1) as [[u|] w2]; simpl in *;
    eapply extends_trans; eassumption.
Qed.

Lemma appending_setState {A} (updater : AgentState -> Eff (AgentState * A)) :
  growing updater -> appending (setState updater).
Proof.
  intros Hu w. unfold setState. destruct (Hu (state w) w) as [Hs Hp].
  destruct (updater (state w) w) as [[[s' a]|] w1];
    unfold extends, history; simpl in *.
  - exact Hp.
  - rewrite Hs. reflexivity.
Qed.

Lemma growing_ret {A} (f : AgentState -> AgentState) (a : AgentState -> A) :
  (forall prev, conversationHistory prev `prefix_of` conversationHistory (f prev)) ->
  growing (fun prev => ret (f prev, a prev)).
Proof. intros Hf prev w. simpl. split; [reflexivity|apply Hf]. Qed.

Lemma prefix_of_snoc {A} (l : list A) (x : A) : l `prefix_of` (l ++ [x])%list.
Proof. by apply prefix_app_r. Qed.

Lemma growing_on_event event rid acc :
  growing (on_event Date_now event rid acc).
Proof.
  intros prev w. destruct event as [e|d]; [destruct e|]; simpl;
    unfold intent_is; simpl;
    repeat match goal with
           | |- context [match intent prev with _ => _ end] =>
               destruct (intent prev) as [[|]|]; simpl
           | |- context [if negb ?b then _ else _] => destruct b; simpl
           | |- context [if ?b then _ else _] => destruct b; simpl
           end;
    (split; [reflexivity|]); try reflexivity; try apply prefix_of_snoc.
Qed.

Lemma appending_on_line rid acc line :
  appending (on_line Date_now JSON_parse rid acc line).
Proof.
  unfold on_line. destruct (String.prefix _ _); [|apply appending_ret].
  apply appending_try_catch.
  - destruct (JSON_parse _); [|apply appending_throw].
    apply appending_setState, growing_on_event.
  - apply appending_bind; [apply appending_console_error|].
    intros _. apply appending_ret.
Qed.

Lemma appending_for_lines rid lines :
  forall acc, appending (for_lines Date_now JSON_parse rid acc lines).
Proof.
  induction lines as [|line rest IH]; intros acc; simpl.
  - apply appending_ret.
  - apply appending_bind; [apply appending_on_line|]. intros a. apply IH.
Qed.

Lemma appending_read_loop rid reader :
  forall buffer acc,
    appending (read_loop Date_now JSON_parse rid buffer acc reader).
Proof.
  induction reader as [|value next IH|]; intros buffer acc; simpl.
  - apply appending_ret.
  - apply appending_bind; [apply appending_for_lines|]. intros a. apply IH.
  - apply appending_throw.
Qed.

Lemma appending_fetch message net : appending (fetch message net).
Proof.
  intros w. unfold fetch, extends, history. destruct net; simpl; reflexivity.
Qed.

Lemma appending_stream message net :
  appending (stream Date_now JSON_parse message net).
Proof.
  unfold stream. apply appending_try_finally.
  - apply appending_try_catch.
    + apply appending_bind; [apply appending_fetch|].
      intros [reader|]; [|apply appending_ret].
      apply appending_bind; [apply appending_now|].
      intros t1. apply appending_read_loop.
    + apply appending_setState.
      apply (growing_ret (with_error _) (fun _ => tt)). reflexivity.
  - apply appending_setState.
    apply (growing_ret (with_isStreaming false) (fun _ => tt)). reflexivity.
Qed.

(** *** Frames *)

Lemma substring_whole (s : string) : substring 0 (String.length s) s = s.
Proof. induction s as [|c s IH]; simpl; [reflexivity|by rewrite IH]. Qed.

Lemma split_from_step (piece : string) (c c' : ascii) (rest : string) :
  split_from piece (String c (String c' rest))
  = if Ascii.eqb c LF && Ascii.eqb c' LF then piece :: split_from "" rest
    else split_from (piece ++ String c "") (String c' rest).
Proof. reflexivity. Qed.

Lemma split_from_one_line (json piece : string) :
  one_line json = true ->
  split_from piece (json ++ String LF (String LF ""))
  = [piece ++ json; ""].
Proof.
  revert piece. induction json as [|c json IH]; intros piece H.
  - cbn. by rewrite append_nil_r.
  - cbn in H. apply andb_true_iff in H as [Hc Hj].
    apply negb_true_iff in Hc.
    change (String c json ++ String LF (String LF ""))
      with (String c (json ++ String LF (String LF ""))).
    destruct (json ++ String LF (String LF "")) as [|c' rest] eqn:E.
    { destruct json; discriminate. }
    rewrite split_from_step, Hc. cbn [andb]. rewrite IH by exact Hj.
    by rewrite append_assoc.
Qed.

(** A frame is cut into exactly one line, and nothing is left in the
    buffer. *)
Lemma split_frame (json : string) :
  one_line json = true -> split (frame json) = ["data: " ++ json; ""].
Proof.
  intros H. unfold split, frame.
  rewrite <- append_assoc. by rewrite split_from_one_line.
Qed.

(** The line of a frame gives its JSON text back to [JSON.parse]. *)
Lemma on_line_frame rid acc (json : string) :
  on_line Date_now JSON_parse rid acc ("data: " ++ json)
  = try_catch
      (match JSON_parse json with
       | None => throw
       | Some event => setState (on_event Date_now event rid acc)
       end)
      (run console_error ("Failed to parse event: " ++ json); ret acc).
Proof.
  unfold on_line.
  replace (String.prefix "data: " ("data: " ++ json)) with true
    by (by destruct json).
  assert (Hlen : (String.length ("data: " ++ json) - 6)%nat
                 = String.length json).
  { change (String.length ("data: " ++ json))
      with (S (S (S (S (S (S (String.length json)))))))%nat. lia. }
  rewrite Hlen.
  change (substring 6 (String.length json) ("data: " ++ json))
    with (substring 0 (String.length json) json).
  by rewrite substring_whole.
Qed.

(** The updater of an event always returns a state. *)
Lemma on_event_returns event rid acc (prev : AgentState) (w : World) :
  exists s a w',
    on_event Date_now event rid acc prev w = (Normal (s, a), w').
Proof.
  destruct event as [e|d]; [destruct e|]; cbn;
    unfold intent_is; cbn;
    repeat match goal with
           | |- context [match intent prev with _ => _ end] =>
               destruct (intent prev) as [[|]|]; cbn
           | |- context [if negb ?b then _ else _] => destruct b; cbn
           | |- context [if ?b then _ else _] => destruct b; cbn
           end;
    by eexists _, _, _.
Qed.

(** One frame read on an empty buffer is one state update, with the
    event its JSON text parses to. *)
Lemma read_loop_frame rid acc (json : string) (event : WireEvent)
  (next : ReadableStream) (w : World) :
  one_line json = true ->
  JSON_parse json = Some event ->
  read_loop Date_now JSON_parse rid "" acc (read_value (frame json) next) w
  = (do acc' <- setState (on_event Date_now event rid acc);
     read_loop Date_now JSON_parse rid "" acc' next) w.
Proof.
  intros H1 H2. cbn [read_loop].
  change ("" ++ frame json) with (frame json).
  rewrite split_frame by exact H1. cbn [List.last removelast for_lines].
  rewrite on_line_frame, H2. unfold bind, try_catch, ret, setState.
  destruct (on_event_returns event rid acc (state w) w) as (s & a & w' & ->).
  reflexivity.
Qed.

(** The handler of [pipeline.completed] reads no field of the event: it
    clears [activeFile] and [currentProgress] and leaves [error] as it
    was, whatever happened in the run. *)
Lemma pipeline_completed_handler rid acc (prev : AgentState) (w : World) :
  exists s,
    fst (on_event Date_now (Typed pipeline_completed) rid acc prev w)
    = Normal (s, acc) /\
    activeFile s = None /\ currentProgress s = None /\
    error s = error prev /\ isStreaming s = isStreaming prev.
Proof.
  cbn. unfold intent_is. cbn.
  destruct (intent prev) as [[|]|]; cbn;
    try destruct (negb (String.eqb acc "")); cbn;
    eexists; repeat split.
Qed.

(** The hook's file map after a code chunk: the text is appended once to
    what the file held, and the other files are untouched. *)
Lemma code_chunk_appends rid acc content file (prev : AgentState)
  (w : World) (other : string) :
  exists s,
    fst (on_event Date_now (Typed (code_chunk content file)) rid acc prev w)
    = Normal (s, acc) /\
    files s !! file = Some (get_or_empty (files prev) file ++ content) /\
    (other <> file -> files s !! other = files prev !! other).
Proof.
  eexists. split; [reflexivity|]. simpl. split.
  - by rewrite lookup_insert_eq.
  - intros Hne. by rewrite lookup_insert_ne.
Qed.

(** *** The updates in time *)





























End HookFacts.

(** C8 (as the code has it): an event whose discriminant is none of the
    [case] labels of the switch is ignored: the state update leaves the
    state, the console and the closure's accumulated response exactly
    as they were; no violation of any kind is recorded. *)
Theorem unhandled_event_is_ignored (Date_now : nat -> Z)
  (event : UseAgent.WireEvent)
  (currentResponseId accumulatedResponse : string) (w : UseAgent.World) :
  ~ In (UseAgent.event_of event) UseAgent.switch_cases ->
  UseAgent.setState
    (UseAgent.on_event Date_now event currentResponseId accumulatedResponse) w
  = (UseAgent.Normal accumulatedResponse, w).
Proof.
  intros Hcase. destruct w as [s t c r].
  destruct event as [e|d]; [destruct e|]; simpl in Hcase;
    try (exfalso; apply Hcase; simpl; tauto);
    reflexivity.
Qed.

Section HookTheorems.
Import Types UseAgent.

Variable Date_now : nat -> Z.
Variable JSON_parse : string -> option WireEvent.

(** C9: whatever the network does (the fetch rejects, the response has
    no body, the body ends, a read rejects), [sendMessage] completes
    normally and leaves [isStreaming = false]. *)
Theorem sendMessage_clears_isStreaming (message : string) (net : FetchResult)
  (w : World) :
  fst (sendMessage Date_now JSON_parse message net w) = Normal tt /\
  isStreaming (state (snd (sendMessage Date_now JSON_parse message net w)))
  = false.
Proof.
  unfold sendMessage, bind.
  destruct (announce Date_now message w) as [[[]|] w1] eqn:Ha.
  2:{ unfold announce, bind, now, setState in Ha. simpl in Ha. discriminate. }
  unfold stream, try_finally.
  match goal with |- context [try_catch ?b ?h w1] =>
    destruct (try_catch b h w1) as [c w2] eqn:Hc end.
  assert (c = Normal tt) as ->.
  { unfold try_catch in Hc.
    match type of Hc with context [bind ?m ?k w1] =>
      destruct (bind m k w1) as [[[]|] w3] end.
    - by inversion Hc.
    - unfold setState, ret in Hc. simpl in Hc. by inversion Hc. }
  simpl. split; reflexivity.
Qed.


End HookTheorems.

(** ** The orchestrator: vocabulary, termination of the stream, and the
       stored files *)

Section OrchestratorFacts.
Import Types Orchestrator.

Lemma discriminant_declared (e : AgentStreamEvent) :
  In (discriminant e) AgentStreamEvent_discriminants.
Proof. destruct e; simpl; tauto. Qed.

Lemma event_field (e : Event) : get "event" e = Some (JString (event_name e)).
Proof. destruct e as [a|d|p]; reflexivity. Qed.

Lemma dict_get_set_eq key value d :
  dict_get key (dict_set key value d) = Some value.
Proof.
  induction d as [|[k v] d IH]; simpl.
  - by rewrite String.eqb_refl.
  - destruct (String.eqb k key) eqn:E; simpl.
    + by rewrite String.eqb_refl.
    + by rewrite E.
Qed.

Lemma dict_get_set_ne key key' value d :
  key <> key' -> dict_get key' (dict_set key value d) = dict_get key' d.
Proof.
  intros Hne. induction d as [|[k v] d IH]; simpl.
  - apply String.eqb_neq in Hne. by rewrite Hne.
  - destruct (String.eqb k key) eqn:E; simpl.
    + apply String.eqb_eq in E. subst k.
      apply String.eqb_neq in Hne. by rewrite Hne.
    + destruct (String.eqb k key'); [reflexivity|exact IH].
Qed.

Lemma chunks_for_app p (l1 l2 : list Event) :
  chunks_for p (l1 ++ l2) = chunks_for p l1 ++ chunks_for p l2.
Proof.
  induction l1 as [|e l1 IH]; simpl; [reflexivity|].
  destruct e as [a|d|q]; [destruct a| |]; try exact IH.
  destruct (String.eqb file p); [|exact IH].
  by rewrite IH, append_assoc.
Qed.

Lemma capture_other (d : dict) (o : string) : capture d (Other o) = d.
Proof.
  unfold capture, is_event. cbn. by destruct (String.eqb o "code.chunk").
Qed.

(** One step of the capture, on the entry of a path. *)
Lemma capture_get (p : string) (d : dict) (e : Event) :
  p <> "" ->
  dict_get p (capture d e)
  = if has_chunk p [e]
    then Some (dict_get_or p "" d ++ chunks_for p [e])
    else dict_get p d.
Proof.
  intros Hp. unfold dict_get_or.
  destruct e as [a|o|q]; [destruct a| |]; try reflexivity;
    [|by rewrite capture_other].
  cbn. rewrite orb_false_r. destruct (String.eqb file "") eqn:Ef.
  - apply String.eqb_eq in Ef. subst file.
    destruct (String.eqb "" p) eqn:E; [|reflexivity].
    apply String.eqb_eq in E. congruence.
  - destruct (String.eqb file p) eqn:E.
    + apply String.eqb_eq in E. subst file.
      rewrite dict_get_set_eq. unfold dict_get_or.
      by rewrite append_nil_r.
    + apply String.eqb_neq in E. by rewrite dict_get_set_ne.
Qed.

Lemma has_chunk_app p (l1 l2 : list Event) :
  has_chunk p (l1 ++ l2) = has_chunk p l1 || has_chunk p l2.
Proof.
  induction l1 as [|e l1 IH]; [reflexivity|].
  destruct e as [a|o|q]; [destruct a| |]; try exact IH.
  cbn. by rewrite IH, orb_assoc.
Qed.

Lemma chunks_for_no_chunk p (l : list Event) :
  has_chunk p l = false -> chunks_for p l = "".
Proof.
  induction l as [|e l IH]; [reflexivity|].
  destruct e as [a|o|q]; [destruct a| |]; try exact IH.
  cbn. destruct (String.eqb file p); [discriminate|exact IH].
Qed.

(** The entry of a path once the events are through: the text it had,
    followed by the text of the chunks of that path; no entry when it
    had none and there is no such chunk. *)
Lemma capture_fold (p : string) (events : list Event) :
  p <> "" ->
  forall d,
    dict_get p (fold_left capture events d)
    = if has_chunk p events
      then Some (dict_get_or p "" d ++ chunks_for p events)
      else dict_get p d.
Proof.
  intros Hp. induction events as [|e events IH]; intros d; [reflexivity|].
  cbn [fold_left]. rewrite IH. unfold dict_get_or.
  rewrite (capture_get p d e Hp).
  change (e :: events) with ([e] ++ events)%list.
  rewrite chunks_for_app, has_chunk_app.
  destruct (has_chunk p [e]) eqn:He, (has_chunk p events) eqn:Hs;
    cbn [orb]; unfold dict_get_or.
  - by rewrite append_assoc.
  - by rewrite (chunks_for_no_chunk p events Hs), append_nil_r.
  - by rewrite (chunks_for_no_chunk p [e] He).
  - reflexivity.
Qed.

(** The empty path is never a key. *)
Lemma capture_empty_key (events : list Event) :
  forall d, dict_get "" d = None ->
            dict_get "" (fold_left capture events d) = None.
Proof.
  induction events as [|e events IH]; intros d Hd; simpl; [exact Hd|].
  apply IH. destruct e as [a|o|q]; [destruct a| |]; try exact Hd;
    [|by rewrite capture_other].
  cbn. destruct (String.eqb file "") eqn:Ef; [exact Hd|].
  apply String.eqb_neq in Ef. by rewrite dict_get_set_ne.
Qed.

(** What the capture holds for a path in the end. *)
Lemma file_contents_entry (p : string) (events : list Event) :
  dict_get p (file_contents_after events)
  = if negb (String.eqb p "") && has_chunk p events
    then Some (chunks_for p events)
    else None.
Proof.
  unfold file_contents_after. destruct (String.eqb p "") eqn:E.
  - apply String.eqb_eq in E. subst p. by rewrite capture_empty_key.
  - apply String.eqb_neq in E. by rewrite capture_fold.
Qed.

Lemma chunks_for_none p (l : list Event) :
  (forall e, In e l -> is_event "code.chunk" e = false) ->
  chunks_for p l = "".
Proof.
  induction l as [|e l IH]; intros H; simpl; [reflexivity|].
  assert (He := H e (or_introl eq_refl)).
  assert (Hl : chunks_for p l = "") by (apply IH; intros; apply H; by right).
  destruct e as [a|o|q]; [destruct a| |]; try exact Hl. discriminate He.
Qed.

Section WithAgents.

Variable classify : string -> Intent.
Variable run_chat_agent : string -> list Event * Ending.
Variable run_designing_agent : string -> list Event * Ending.
Variable run_coding_agent : Event -> string -> list Event * Ending.
Variable db_create_file : string -> string -> string -> option Z.

Lemma persist_yields_own project_id items e :
  In e (fst (persist db_create_file project_id items)) ->
  exists path, e = file_persisted path.
Proof.
  induction items as [|[p c] items IH]; simpl; [tauto|].
  destruct (db_create_file _ _ _); simpl; [|exact IH].
  intros [<-|H]; [by eexists|by apply IH].
Qed.

Lemma persist_yields_no_chunk project_id items e :
  In e (fst (persist db_create_file project_id items)) ->
  is_event "code.chunk" e = false.
Proof. intros [path ->]%persist_yields_own. reflexivity. Qed.

Lemma persist_head project_id (tail : DbCall) items :
  (forall id c, tail <> save_code id c) ->
  exists call rest,
    (snd (persist db_create_file project_id items) ++ [tail])%list
    = call :: rest /\
    forall id c, call <> save_code id c.
Proof.
  intros Htail. destruct items as [|[q c] items]; simpl.
  - exists tail, []. by split.
  - destruct (db_create_file _ _ _); simpl; eexists _, _; by split.
Qed.

Lemma committed_persist project_id (tail : DbCall) items p :
  (forall id c, tail <> save_code id c) ->
  (forall a b c, tail <> create_file a b c) ->
  committed p (snd (persist db_create_file project_id items) ++ [tail])
  = if recorded db_create_file project_id p then dict_get p items else None.
Proof.
  intros Hs Hc. unfold recorded. induction items as [|[q c] items IH].
  - destruct tail as [a b c d|a b c|a b];
      [|by destruct (Hc a b c)|by destruct (Hs a b)].
    simpl. by destruct (db_create_file _ _ _).
  - simpl persist.
    destruct (db_create_file project_id q (last_segment q)) as [id|] eqn:Eq.
    + cbn. destruct (String.eqb q p) eqn:E.
      * apply String.eqb_eq in E. subst q. by rewrite Eq.
      * exact IH.
    + cbn [snd app].
      destruct (persist_head project_id tail items Hs)
        as (call & rest & Hrest & Hcall).
      rewrite Hrest in *.
      assert (Hskip : committed p
                        (create_file project_id q (last_segment q)
                         :: call :: rest)
                      = committed p (call :: rest)).
      { destruct call; try reflexivity.
        by destruct (Hcall file_id code_content). }
      rewrite Hskip, IH. cbn.
      destruct (String.eqb q p) eqn:E; [|reflexivity].
      apply String.eqb_eq in E. subst q. by rewrite Eq.
Qed.

(** The stream of a run, stage by stage. *)
Lemma yielded_run (project_id user_message : string) :
  let r := run_agent_pipeline classify run_chat_agent run_designing_agent
             run_coding_agent db_create_file project_id user_message in
  let agents := forwarded classify run_chat_agent run_designing_agent
                  run_coding_agent user_message in
  let head := [Agent pipeline_started;
               Agent (intent_classified (classify user_message))] in
  (ending r = raised
   <-> stage_raises classify run_chat_agent run_designing_agent
         run_coding_agent user_message = true) /\
  (ending r = raised ->
   yielded r = (head ++ agents)%list /\ db_calls r = []) /\
  (ending r = returned ->
   exists persisted reply,
     yielded r
     = (head ++ agents ++ map file_persisted persisted
        ++ [Agent pipeline_completed])%list /\
     last (db_calls r)
     = Some (add_chat_message project_id user_message reply
               (classify user_message))).
Proof.
  cbv zeta. unfold run_agent_pipeline, forwarded, stage_raises, coding_stage,
    design_plan_of.
  destruct (classify user_message).
  - destruct (run_chat_agent user_message) as [events [|]]; cbn.
    + split; [done|]. split; [done|]. intros _.
      exists [], (ai_response (fold_left collect_chat events "")).
      by split.
    + split; [done|]. split; [|done]. by intros _.
  - destruct (run_designing_agent user_message) as [design [|]]; cbn.
    2:{ split; [done|]. split; [|done]. intros _.
        by rewrite app_nil_r. }
    destruct (match fold_left collect_plan design None with
              | Some plan => run_coding_agent plan user_message
              | None => ([], returned)
              end) as [coding [|]]; cbn.
    + split; [done|]. split; [done|]. intros _.
      assert (Hp : exists persisted,
                 fst (persist db_create_file project_id
                        (file_contents_after coding))
                 = map file_persisted persisted).
      { induction (file_contents_after coding) as [|[p c] items [l IH]].
        - by exists [].
        - cbn. destruct (db_create_file _ _ _); cbn.
          + exists (p :: l). by rewrite IH.
          + by exists l. }
      destruct Hp as [persisted ->].
      exists persisted, (str_design_plan (fold_left collect_plan design None)).
      split; [by rewrite <- (app_assoc design coding)|]. apply last_snoc.
    + split; [done|]. split; [|done]. intros _. by split.
Qed.

Lemma own_named (intent : Intent) (e : Event) :
  own intent e ->
  get "event" e = Some (JString (event_name e)) /\
  (In (event_name e) AgentStreamEvent_discriminants \/
   exists path, e = file_persisted path).
Proof.
  intros [->|[->|[[path ->]| ->]]]; (split; [reflexivity|]);
    [left; cbn; tauto|left; cbn; tauto|right; by exists path
    |left; cbn; tauto].
Qed.

Lemma yielded_from (project_id user_message : string) (e : Event) :
  In e (yielded (run_agent_pipeline classify run_chat_agent
                   run_designing_agent run_coding_agent db_create_file
                   project_id user_message)) ->
  In e (forwarded classify run_chat_agent run_designing_agent
          run_coding_agent user_message)
  \/ own (classify user_message) e.
Proof.
  destruct (yielded_run project_id user_message) as (_ & Hraised & Hret).
  cbv zeta in Hraised, Hret.
  set (r := run_agent_pipeline _ _ _ _ _ _ _) in *.
  intros He. unfold own. destruct (ending r) eqn:E.
  - destruct (Hret eq_refl) as (persisted & reply & Hy & _).
    rewrite Hy in He. cbn in He.
    destruct He as [<-|[<-|He]]; [tauto|tauto|].
    apply in_app_or in He as [He|He]; [by left|].
    apply in_app_or in He as [He|[<-|[]]]; [|tauto].
    apply in_map_iff in He as (path & <- & _). right. eauto.
  - destruct (Hraised eq_refl) as [Hy _]. rewrite Hy in He. cbn in He.
    destruct He as [<-|[<-|He]]; tauto.
Qed.

Lemma forwarded_yielded (project_id user_message : string) (e : Event) :
  In e (forwarded classify run_chat_agent run_designing_agent
          run_coding_agent user_message) ->
  In e (yielded (run_agent_pipeline classify run_chat_agent
                   run_designing_agent run_coding_agent db_create_file
                   project_id user_message)).
Proof.
  destruct (yielded_run project_id user_message) as (_ & Hraised & Hret).
  cbv zeta in Hraised, Hret.
  set (r := run_agent_pipeline _ _ _ _ _ _ _) in *.
  intros He. destruct (ending r) eqn:E.
  - destruct (Hret eq_refl) as (persisted & reply & -> & _).
    cbn. right. right. apply in_or_app. by left.
  - destruct (Hraised eq_refl) as [-> _]. cbn. by right; right.
Qed.







(** C1 (as the code has it): the orchestrator puts four kinds of event
    of its own on the stream: [pipeline.started], [intent.classified]
    and [pipeline.completed], which [types.ts] declares, and
    [file.persisted], which it does not.  Every other event of the
    stream is one that an agent yielded, and every event the loops take
    from an agent is on the stream: nothing is checked and nothing is
    held back.  So the stream keeps to [AgentStreamEvent] as far as the
    agents do and but for [file.persisted], and an event outside that
    type is an agent's or a [file.persisted]. *)
Theorem stream_is_agents_and_own_events (project_id user_message : string) :
  let r := run_agent_pipeline classify run_chat_agent run_designing_agent
             run_coding_agent db_create_file project_id user_message in
  let agents := forwarded classify run_chat_agent run_designing_agent
                  run_coding_agent user_message in
  (forall e, In e (yielded r) ->
             In e agents \/ own (classify user_message) e) /\
  (forall e, In e agents -> In e (yielded r)) /\
  (forall e, own (classify user_message) e ->
             get "event" e = Some (JString (event_name e)) /\
             (In (event_name e) AgentStreamEvent_discriminants \/
              exists path, e = file_persisted path)) /\
  (forall path,
     event_name (file_persisted path) = "file.persisted" /\
     ~ In (event_name (file_persisted path))
         AgentStreamEvent_discriminants) /\
  ((forall e, In e agents ->
              In (event_name e) AgentStreamEvent_discriminants) ->
   forall e, In e (yielded r) ->
             In (event_name e) AgentStreamEvent_discriminants \/
             exists path, e = file_persisted path) /\
  (forall e, In e (yielded r) ->
             ~ In (event_name e) AgentStreamEvent_discriminants ->
             In e agents \/ exists path, e = file_persisted path).
Proof.
  cbv zeta.
  split; [apply yielded_from|]. split; [apply forwarded_yielded|].
  split; [apply own_named|]. split; [|split].
  - intros path. split; [reflexivity|]. cbn. intuition discriminate.
  - intros Hagents e He.
    destruct (yielded_from project_id user_message e He) as [Ha|Ho].
    + left. by apply Hagents.
    + by apply (own_named _ _ Ho).
  - intros e He Hout.
    destruct (yielded_from project_id user_message e He) as [Ha|Ho];
      [by left|].
    destruct (own_named _ _ Ho) as [_ [Hin|Hp]]; [by destruct Hout|].
    by right.
Qed.

(** C2 (as the code has it): a run ends as its stages end.  When every
    stage returns, the stream ends with the terminal
    [pipeline.completed], an event without an [ok] field, and the reply
    is stored; this is so too when the design stage leaves no plan, in
    which case the coding stage is skipped and the stream closes right
    after the design events.  When a stage raises, nothing catches the
    exception: the stream is over with the last event that stage
    yielded, without [pipeline.completed], and nothing is stored.  In
    neither case does the orchestrator put an [error] event on the
    stream: one that is there was yielded by an agent. *)
Theorem run_ends_as_its_stages_end (project_id user_message : string) :
  let r := run_agent_pipeline classify run_chat_agent run_designing_agent
             run_coding_agent db_create_file project_id user_message in
  let agents := forwarded classify run_chat_agent run_designing_agent
                  run_coding_agent user_message in
  let head := [Agent pipeline_started;
               Agent (intent_classified (classify user_message))] in
  (ending r = raised
   <-> stage_raises classify run_chat_agent run_designing_agent
         run_coding_agent user_message = true) /\
  (ending r = returned ->
   (exists e, last (yielded r) = Some e /\
              is_event "pipeline.completed" e = true /\
              get "ok" e = None) /\
   exists reply,
     last (db_calls r)
     = Some (add_chat_message project_id user_message reply
               (classify user_message))) /\
  (ending r = raised ->
   yielded r = (head ++ agents)%list /\ db_calls r = []) /\
  (forall e, In e (yielded r) -> is_event "error" e = true -> In e agents) /\
  (classify user_message = code ->
   snd (run_designing_agent user_message) = returned ->
   design_plan_of run_designing_agent user_message = None ->
   ending r = returned /\
   yielded r
   = (head ++ fst (run_designing_agent user_message)
      ++ [Agent pipeline_completed])%list).
Proof.
  cbv zeta.
  destruct (yielded_run project_id user_message) as (Hiff & Hraised & Hret).
  cbv zeta in Hiff, Hraised, Hret.
  split; [exact Hiff|]. split; [|split; [exact Hraised|split]].
  - intros E. destruct (Hret E) as (persisted & reply & Hy & Hdb).
    split; [|by exists reply].
    exists (Agent pipeline_completed). split; [|by split].
    rewrite Hy, !app_assoc. apply last_snoc.
  - intros e He Herr.
    destruct (yielded_from project_id user_message e He) as [Ha|Ho];
      [exact Ha|].
    destruct Ho as [->|[->|[[path ->]| ->]]]; discriminate.
  - intros Hc Hd Hp. unfold run_agent_pipeline, design_plan_of in *.
    rewrite Hc. destruct (run_designing_agent user_message) as [design e1].
    cbn in Hd, Hp. subst e1. rewrite Hp. by cbn.
Qed.

(** C4 (as the code has it): what is stored for a path.  In a run of
    the code branch in which no stage raises, a path that is not empty,
    that some [code.chunk] of the coding stage names and for which
    [db.create_file] returns a record is stored with the concatenation,
    in the order of the stream, of the text of all the [code.chunk]
    events of the coding stage for that path: nothing is dropped and
    nothing is taken twice.  For every other path, and in every other
    run, nothing is stored: the chunks of a path without a record and
    those without a path are lost.  The chunks of the stream are those
    of the design stage, of which none is captured, followed by those
    of the coding stage. *)
Theorem stored_content_is_concatenation (project_id user_message : string)
  (path : string) :
  let r := run_agent_pipeline classify run_chat_agent run_designing_agent
             run_coding_agent db_create_file project_id user_message in
  let coding :=
    fst (coding_stage run_designing_agent run_coding_agent user_message) in
  committed path (db_calls r)
  = match classify user_message, ending r with
    | code, returned =>
        if negb (String.eqb path "") && has_chunk path coding
           && recorded db_create_file project_id path
        then Some (chunks_for path coding)
        else None
    | _, _ => None
    end /\
  (classify user_message = code -> ending r = returned ->
   chunks_for path (yielded r)
   = chunks_for path (fst (run_designing_agent user_message))
     ++ chunks_for path coding).
Proof.
  cbv zeta. unfold run_agent_pipeline, coding_stage, design_plan_of.
  destruct (classify user_message).
  { split; [|discriminate].
    by destruct (run_chat_agent user_message) as [events [|]]. }
  destruct (run_designing_agent user_message) as [design [|]];
    cbn [fst snd]; [|by split].
  destruct (match fold_left collect_plan design None with
            | Some plan => run_coding_agent plan user_message
            | None => ([], returned)
            end) as [coding [|]]; cbn [fst snd yielded db_calls ending];
    [|by split].
  split.
  - rewrite committed_persist by done. rewrite file_contents_entry.
    destruct (recorded db_create_file project_id path);
      [by rewrite andb_true_r|].
    rewrite andb_false_r. reflexivity.
  - intros _ _. rewrite !chunks_for_app.
    rewrite (chunks_for_none path (fst (persist _ _ _)))
      by (intros e; apply persist_yields_no_chunk).
    cbn. by rewrite append_nil_r.
Qed.


End WithAgents.
End OrchestratorFacts.

(** ** The admission controller *)

Section RateLimiterFacts.
Import RateLimiter.

Variable cfg : Config.

Lemma roll_within len now c :
  now - windowStart c < len -> roll len now c = c.
Proof.
  intros H. unfold roll.
  destruct (Z.geb_spec (now - windowStart c) len); [lia|reflexivity].
Qed.

Lemma roll_elapsed len now c :
  len <= now - windowStart c -> roll len now c = mkCounter 0 now.
Proof.
  intros H. unfold roll.
  destruct (Z.geb_spec (now - windowStart c) len); [reflexivity|lia].
Qed.

Lemma roll_count_le len now c : (count (roll len now c) <= count c)%nat.
Proof. unfold roll. destruct (_ >=? _); simpl; lia. Qed.

(** What the next check sees once a bucket has been stored. *)
Lemma bucket_seen_insert now id b buckets :
  bucket_seen cfg now id (<[id := b]> buckets)
  = mkBucket (roll (minute_length cfg) now (minute_window b))
             (roll (hour_length cfg) now (hour_window b)).
Proof. unfold bucket_seen, bucket_of. by rewrite lookup_insert_eq. Qed.

Lemma counter_seen_insert w now id b buckets :
  counter w (bucket_seen cfg now id (<[id := b]> buckets))
  = roll (windowLength cfg w) now (counter w b).
Proof. rewrite bucket_seen_insert. by destruct w. Qed.

Lemma check_allows now id buckets :
  let b := bucket_seen cfg now id buckets in
  (forall w, (count (counter w b) < limit cfg w)%nat) ->
  check cfg now id buckets
  = (Allow,
     <[id := mkBucket (bump (minute_window b)) (bump (hour_window b))]>
       buckets).
Proof.
  intros b H. unfold check. fold b. unfold exhausted.
  pose proof (H minute) as Hm. pose proof (H hour) as Hh. simpl in Hm, Hh.
  destruct (Nat.leb_spec (limit cfg minute) (count (counter minute b)));
    [simpl in *; lia|].
  destruct (Nat.leb_spec (limit cfg hour) (count (counter hour b)));
    [simpl in *; lia|].
  reflexivity.
Qed.

Lemma check_denies w now id buckets :
  let b := bucket_seen cfg now id buckets in
  (limit cfg w <= count (counter w b))%nat ->
  exists r, check cfg now id buckets = (Deny r, <[id := b]> buckets).
Proof.
  intros b H. unfold check. fold b. unfold exhausted.
  destruct w; simpl in H.
  - destruct (Nat.leb_spec (limit cfg minute) (count (counter minute b)));
      [|simpl in *; lia].
    destruct (_ <=? _)%nat; eexists; reflexivity.
  - destruct (Nat.leb_spec (limit cfg hour) (count (counter hour b)));
      [|simpl in *; lia].
    destruct (_ <=? _)%nat; eexists; reflexivity.
Qed.

Lemma counter_bump w a b :
  counter w (mkBucket (bump a) (bump b)) = bump (counter w (mkBucket a b)).
Proof. by destruct w. Qed.

Lemma bucket_eta (b : RateBucket) :
  mkBucket (minute_window b) (hour_window b) = b.
Proof. by destruct b. Qed.

Lemma room_count w (b : RateBucket) :
  exhausted cfg w b = false -> (count (counter w b) < limit cfg w)%nat.
Proof. unfold exhausted. intros H. by apply Nat.leb_gt in H. Qed.

(** The checks that fit into an open window are all allowed while the
    other window has room, and leave the window full. *)
Lemma checks_fill_window (w : Window) (id : string) (s t_next : Z) :
  forall (times : list Z) (buckets : gmap string RateBucket) (k : nat),
    counter w (bucket_seen cfg (hd t_next times) id buckets) = mkCounter k s ->
    (k + length times = limit cfg w)%nat ->
    has_room cfg (other w) id times buckets = true ->
    (forall t, In t (times ++ [t_next]) -> t - s < windowLength cfg w) ->
    Forall (eq Allow) (fst (checks cfg id times buckets)) /\
    counter w (bucket_seen cfg t_next id (snd (checks cfg id times buckets)))
    = mkCounter (limit cfg w) s.
Proof.
  induction times as [|t rest IH]; intros buckets k Hw Hk Hroom Ht.
  - simpl in *. rewrite Hw. split; [constructor|f_equal; lia].
  - cbn [hd] in Hw. cbn [length] in Hk. cbn [checks].
    cbn [has_room] in Hroom. apply andb_true_iff in Hroom as [Ho Hroom].
    apply negb_true_iff, room_count in Ho.
    rewrite check_allows in Hroom |- *.
    2,3: intros w'; assert (w' = w \/ w' = other w) as [->| ->]
        by (destruct w, w'; simpl; auto);
      [rewrite Hw; simpl; lia|exact Ho].
    set (b := bucket_seen cfg t id buckets) in *.
    set (buckets' := <[id := _]> buckets) in *.
    cbn [snd] in Hroom.
    specialize (IH buckets' (S k)).
    destruct (checks cfg id rest buckets') as [ds buckets''] eqn:E.
    cbn [fst snd] in *.
    assert (Hnext : hd t_next rest - s < windowLength cfg w).
    { apply Ht. destruct rest; simpl; auto. }
    destruct IH as (IH1 & IH2).
    + unfold buckets'. rewrite counter_seen_insert, counter_bump, bucket_eta.
      rewrite Hw. apply roll_within. simpl. exact Hnext.
    + lia.
    + exact Hroom.
    + intros t' Ht'. apply Ht. by right.
    + split; [by constructor|exact IH2].
Qed.

(** C5 (as the two-window check has it): take either window [w] of an
    identity, open at [s] with count 0 when the first check arrives,
    and let the other window of the identity not be the one that
    denies: it has room at each of the first [limit w] checks and at
    the check that follows the end of the window.  Then the first
    [limit w] checks made before [s + windowLength w] are all allowed,
    the next check made before that time is denied, and the next one
    made at or after it is allowed again. *)
Theorem window_quota (w : Window) (id : string)
  (buckets : gmap string RateBucket) (s : Z) (times : list Z)
  (t_next t_after : Z) :
  let first := hd t_next times in
  let filled := checks cfg id times buckets in
  let denied := check cfg t_next id (snd filled) in
  let again := check cfg t_after id (snd denied) in
  counter w (bucket_seen cfg first id buckets) = mkCounter 0 s ->
  length times = limit cfg w ->
  (0 < limit cfg w)%nat ->
  (forall t, In t (times ++ [t_next]) -> t - s < windowLength cfg w) ->
  windowLength cfg w <= t_after - s ->
  has_room cfg (other w) id times buckets = true ->
  exhausted cfg (other w) (bucket_seen cfg t_after id (snd denied)) = false ->
  Forall (eq Allow) (fst filled) /\
  (exists r, fst denied = Deny r) /\
  fst again = Allow.
Proof.
  intros first filled denied again Hw Hlen Hpos Ht Hafter Hroom Hlast.
  destruct (checks_fill_window w id s t_next times buckets 0)
    as (Hall & Hfull); try done.
  fold filled in Hall, Hfull.
  split; [exact Hall|].
  destruct (check_denies w t_next id (snd filled)) as [r Hr].
  { rewrite Hfull. simpl. lia. }
  fold denied in Hr. subst again. rewrite Hr in Hlast |- *.
  cbn [fst snd] in *. split; [by exists r|].
  rewrite check_allows; [reflexivity|].
  intros w'.
  assert (w' = w \/ w' = other w) as [->| ->]
    by (destruct w, w'; simpl; auto).
  - rewrite counter_seen_insert, Hfull, roll_elapsed by (simpl; lia).
    simpl. lia.
  - by apply room_count.
Qed.

End RateLimiterFacts.

Section EndpointFacts.
Import Types Main.

Variable Limiter : Type.
Variable is_allowed : Z -> string -> Limiter -> (bool * string) * Limiter.
Variable agent_event_stream : string -> list Orchestrator.Event.

(** C6 (as the code has it): whenever the limiter refuses a request, the
    endpoint answers 429 with [retry_after = 60], a constant: it depends
    neither on the time of the request nor on which window is
    exhausted; and the limiter's state is the only thing that changes. *)
Theorem denied_request_retry_after_is_60 (now : Z)
  (request client_ip : string) (limiter : Limiter) :
  fst (fst (is_allowed now client_ip limiter)) = false ->
  let r := agent_stream_endpoint Limiter is_allowed agent_event_stream
             now request client_ip limiter in
  status_code_of (fst r) = 429 /\
  retry_after (fst r) = Some 60 /\
  snd r = snd (is_allowed now client_ip limiter).
Proof.
  intros H. unfold agent_stream_endpoint.
  destruct (is_allowed now client_ip limiter) as [[allowed message] l'].
  simpl in H. subst allowed. simpl. repeat split.
Qed.

End EndpointFacts.

(** ** The router and the stages *)

Section PipelineFacts.
Import Pipeline.

(** C7: [classify] always answers one of the two branches; it answers
    [Generative] only for the label 'code', so every failure, timeout
    and unrecognized output gives [Conversational]; the router puts no
    error on the stream, and a run whose classification failed is, event
    for event, the run of a classifier that answered 'chat'. *)
Theorem classify_fails_closed (c : Collaborators) (messageText : string) :
  let call := classifier c in
  (classify call messageText = Conversational \/
   classify call messageText = Generative) /\
  (classify call messageText = Generative
   <-> call messageText = Produced "code") /\
  List.filter is_error (router_events call messageText) = [] /\
  (call messageText <> Produced "code" ->
   classify call messageText = Conversational /\
   run c messageText
   = run (with_classifier (fun _ => Produced "chat") c) messageText).
Proof.
  cbv zeta. set (call := classifier c).
  assert (Hiff : classify call messageText = Generative
                 <-> call messageText = Produced "code").
  { unfold classify.
    destruct (call messageText) as [label| |]; try (split; discriminate).
    destruct (String.eqb_spec label "code") as [->|Hne].
    - by split.
    - split; [by destruct (String.eqb label "chat")|].
      intros H. inversion H. contradiction. }
  assert (Hc : call messageText <> Produced "code" ->
               classify call messageText = Conversational).
  { intros Hne. destruct (classify call messageText); [done|].
    exfalso. by apply Hne, Hiff. }
  split; [destruct (classify call messageText); auto|].
  split; [exact Hiff|]. split; [reflexivity|].
  intros Hne. split; [by apply Hc|].
  unfold run, router_events. fold call. rewrite (Hc Hne). reflexivity.
Qed.

End PipelineFacts.

(** ** The properties at work on the sample runs *)

Section Instances.
Import Types Examples.

(** C1, the claim as stated fails: the code flow puts [design.started],
    [code.started], [code.completed] and [file.persisted] on the stream,
    discriminants outside the vocabulary of section 3; the run shows
    eleven distinct discriminants, one more than that vocabulary has
    names, so that no renaming of the events fits it either. *)
Lemma code_run_leaves_spec_vocabulary :
  In (Orchestrator.Agent code_started) (Orchestrator.yielded code_run) /\
  Orchestrator.event_name (Orchestrator.Agent code_started)
  = "code.started" /\
  ~ In "code.started" Pipeline.vocabulary /\
  In (Orchestrator.file_persisted "lib/main.dart")
     (Orchestrator.yielded code_run) /\
  ~ In "file.persisted" Pipeline.vocabulary /\
  length (remove_dups
            (map Orchestrator.event_name (Orchestrator.yielded code_run)))
  = 11%nat /\
  length Pipeline.vocabulary = 10%nat.
Proof.
  split; [vm_compute; tauto|]. split; [reflexivity|].
  split; [simpl; intuition discriminate|].
  split; [vm_compute; tauto|].
  split; [simpl; intuition discriminate|].
  split; [vm_compute|]; reflexivity.
Qed.

Lemma stream_is_agents_and_own_events_witness :
  (forall e,
      In e (Orchestrator.forwarded (fun _ => code) chat_agent designing_agent
              coding_agent "Build a login button") ->
      In (Orchestrator.event_name e) AgentStreamEvent_discriminants) /\
  (forall e,
      In e (Orchestrator.yielded code_run) ->
      In (Orchestrator.event_name e) AgentStreamEvent_discriminants \/
      exists path, e = Orchestrator.file_persisted path).
Proof.
  assert (H : forall e,
             In e (Orchestrator.forwarded (fun _ => code) chat_agent
                     designing_agent coding_agent "Build a login button") ->
             In (Orchestrator.event_name e) AgentStreamEvent_discriminants).
  { intros e He. vm_compute in He.
    repeat (destruct He as [<-|He]; [vm_compute; tauto|]). destruct He. }
  split; [exact H|].
  destruct (stream_is_agents_and_own_events (fun _ => code) chat_agent
              designing_agent coding_agent db "proj_1"
              "Build a login button") as (_ & _ & _ & _ & H4 & _).
  exact (H4 H).
Defined.

(** C2, the claim as stated fails.  When an agent yields an [error]
    event and returns, as the notes have the agents do, the event is
    followed by the terminal [pipeline.completed], which has no [ok]
    field.  When the design stage leaves no plan, the coding stage
    cannot proceed: the stream holds no [error] event, and ends in the
    same way.  When the coding agent raises, the stream is over with the
    chunk it had yielded: there is no [error] event and no
    [pipeline.completed], and nothing is stored. *)
Lemma failed_run_has_no_error_event :
  (Orchestrator.ending erring_run = Orchestrator.returned /\
   Orchestrator.yielded erring_run
   = [ Orchestrator.Agent pipeline_started;
       Orchestrator.Agent (intent_classified chat);
       Orchestrator.Other "error";
       Orchestrator.Agent pipeline_completed ] /\
   Orchestrator.get "ok" (Orchestrator.Agent pipeline_completed) = None) /\
  (Orchestrator.ending planless_run = Orchestrator.returned /\
   Orchestrator.yielded planless_run
   = [ Orchestrator.Agent pipeline_started;
       Orchestrator.Agent (intent_classified code);
       Orchestrator.Agent design_started;
       Orchestrator.Agent (design_phase "Analyzing request...");
       Orchestrator.Agent pipeline_completed ] /\
   length (List.filter (Orchestrator.is_event "error")
             (Orchestrator.yielded planless_run)) = 0%nat) /\
  (Orchestrator.ending raised_run = Orchestrator.raised /\
   Orchestrator.yielded raised_run
   = [ Orchestrator.Agent pipeline_started;
       Orchestrator.Agent (intent_classified code);
       Orchestrator.Agent design_started;
       Orchestrator.Agent (design_phase "Analyzing request...");
       Orchestrator.Agent
         (design_completed
            ["lib/main.dart"; "lib/widgets/login_button.dart"]);
       Orchestrator.Agent code_started;
       Orchestrator.Agent (code_file_started "lib/main.dart");
       Orchestrator.Agent
         (code_chunk "import 'package:flutter/material.dart';"
            "lib/main.dart") ] /\
   Orchestrator.db_calls raised_run = [] /\
   length (List.filter (Orchestrator.is_event "error")
             (Orchestrator.yielded raised_run)) = 0%nat).
Proof. repeat split. Qed.

Lemma run_ends_as_its_stages_end_witness :
  Orchestrator.ending raised_run = Orchestrator.raised /\
  Orchestrator.yielded raised_run
  = ([ Orchestrator.Agent pipeline_started;
       Orchestrator.Agent (intent_classified code) ]
     ++ Orchestrator.forwarded (fun _ => code) chat_agent designing_agent
          raising_coding_agent "Build a login button")%list /\
  Orchestrator.db_calls raised_run = [].
Proof.
  assert (H : Orchestrator.ending raised_run = Orchestrator.raised)
    by reflexivity.
  split; [exact H|].
  destruct (run_ends_as_its_stages_end (fun _ => code) chat_agent
              designing_agent raising_coding_agent db "proj_1"
              "Build a login button") as (_ & _ & H3 & _).
  exact (H3 H).
Defined.



(** C4, the claim as stated fails: when [db.create_file] gives no
    record for [lib/main.dart], the run completes, the stream has
    carried the two chunks of that path, and nothing is stored for it;
    the other file is stored as before. *)
Lemma chunks_lost_without_record :
  Orchestrator.ending unrecorded_run = Orchestrator.returned /\
  last (Orchestrator.yielded unrecorded_run)
  = Some (Orchestrator.Agent pipeline_completed) /\
  Orchestrator.chunks_for "lib/main.dart"
    (Orchestrator.yielded unrecorded_run)
  = "import 'package:flutter/material.dart'; class LoginButton..." /\
  Orchestrator.committed "lib/main.dart"
    (Orchestrator.db_calls unrecorded_run) = None /\
  Orchestrator.committed "lib/widgets/login_button.dart"
    (Orchestrator.db_calls unrecorded_run) = Some "...".
Proof. repeat split. Qed.

Lemma stored_content_is_concatenation_witness :
  Orchestrator.committed "lib/main.dart" (Orchestrator.db_calls code_run)
  = Some "import 'package:flutter/material.dart'; class LoginButton..." /\
  Orchestrator.chunks_for "lib/main.dart" (Orchestrator.yielded code_run)
  = "import 'package:flutter/material.dart'; class LoginButton...".
Proof.
  destruct (stored_content_is_concatenation (fun _ => code) chat_agent
              designing_agent coding_agent db "proj_1"
              "Build a login button" "lib/main.dart") as [H1 H2].
  split; [exact H1|]. unfold code_run.
  rewrite H2; reflexivity.
Defined.

(** C5, the claim as stated fails for the free tier.  Hour window,
    limit 100: the eleventh check of the first minute is among the
    first hundred of the hour and is denied.  Minute window, limit 10:
    after ten allowed checks in each of ten minutes, the minute window
    of the last burst has elapsed at 600 s, and the next check is still
    denied. *)
Lemma free_tier_windows_interfere :
  fst (RateLimiter.checks free_tier client_ip (repeat 0 11) ∅)
  = (repeat RateLimiter.Allow 10 ++ [RateLimiter.Deny 60])%list /\
  fst (RateLimiter.checks free_tier client_ip ten_per_minute ∅)
  = repeat RateLimiter.Allow 100 /\
  fst (RateLimiter.check free_tier 600 client_ip
         (snd (RateLimiter.checks free_tier client_ip ten_per_minute ∅)))
  = RateLimiter.Deny 3000.
Proof. repeat split; vm_compute; reflexivity. Qed.

Lemma window_quota_witness :
  (Forall (eq RateLimiter.Allow)
     (fst (RateLimiter.checks free_tier client_ip (repeat 0 10) ∅)) /\
   (exists r,
       fst (RateLimiter.check free_tier 30 client_ip after_ten)
       = RateLimiter.Deny r) /\
   fst (RateLimiter.check free_tier 60 client_ip
          (snd (RateLimiter.check free_tier 30 client_ip after_ten)))
   = RateLimiter.Allow) /\
  (Forall (eq RateLimiter.Allow)
     (fst (RateLimiter.checks free_tier client_ip ten_per_minute ∅)) /\
   (exists r,
       fst (RateLimiter.check free_tier 3599 client_ip after_hundred)
       = RateLimiter.Deny r) /\
   fst (RateLimiter.check free_tier 3600 client_ip
          (snd (RateLimiter.check free_tier 3599 client_ip after_hundred)))
   = RateLimiter.Allow).
Proof.
  split.
  - apply (window_quota free_tier RateLimiter.minute client_ip ∅ 0
             (repeat 0 10) 30 60).
    + vm_compute. reflexivity.
    + reflexivity.
    + simpl. lia.
    + intros t Ht. simpl in Ht. simpl. intuition (subst; lia).
    + simpl. lia.
    + vm_compute. reflexivity.
    + vm_compute. reflexivity.
  - apply (window_quota free_tier RateLimiter.hour client_ip ∅ 0
             ten_per_minute 3599 3600).
    + vm_compute. reflexivity.
    + reflexivity.
    + simpl. lia.
    + intros t Ht.
      assert (H : forallb (fun t => t <? 3600) (ten_per_minute ++ [3599])%list
                  = true) by (vm_compute; reflexivity).
      rewrite forallb_forall in H. specialize (H t Ht).
      apply Z.ltb_lt in H. simpl. lia.
    + simpl. lia.
    + vm_compute. reflexivity.
    + vm_compute. reflexivity.
Defined.

(** C6, the claim as stated fails.  A hundred requests in ten minutes
    exhaust the hour window; for the request at 600 s its wait is
    [3600 - (600 - 0) = 3000], and the endpoint answers [retry_after =
    60].  Ten requests at time 0 exhaust the minute window; for the
    request at 30 s the wait of that window is [60 - (30 - 0) = 30], and
    the endpoint answers [retry_after = 60] again. *)
Lemma retry_after_ignores_elapsed_time :
  fst (RateLimiter.check free_tier 600 client_ip after_hundred)
  = RateLimiter.Deny 3000 /\
  Main.retry_after
    (fst (Main.agent_stream_endpoint _ (RateLimiter.is_allowed free_tier)
            (fun _ => []) 600 "Build a login button" client_ip
            after_hundred))
  = Some 60 /\
  fst (RateLimiter.check free_tier 30 client_ip after_ten)
  = RateLimiter.Deny 30 /\
  RateLimiter.remaining free_tier RateLimiter.minute 30
    (RateLimiter.bucket_seen free_tier 30 client_ip after_ten) = 30 /\
  Main.retry_after
    (fst (Main.agent_stream_endpoint _ (RateLimiter.is_allowed free_tier)
            (fun _ => []) 30 "Build a login button" client_ip after_ten))
  = Some 60.
Proof. repeat split; vm_compute; reflexivity. Qed.

Lemma denied_request_retry_after_is_60_witness :
  fst (fst (RateLimiter.is_allowed free_tier 30 client_ip after_ten)) = false /\
  Main.status_code_of
    (fst (Main.agent_stream_endpoint _ (RateLimiter.is_allowed free_tier)
            (fun _ => []) 30 "Build a login button" client_ip after_ten))
  = 429 /\
  Main.retry_after
    (fst (Main.agent_stream_endpoint _ (RateLimiter.is_allowed free_tier)
            (fun _ => []) 30 "Build a login button" client_ip after_ten))
  = Some 60.
Proof.
  assert (H : fst (fst (RateLimiter.is_allowed free_tier 30 client_ip
                          after_ten)) = false).
  { vm_compute. reflexivity. }
  split; [exact H|].
  destruct (denied_request_retry_after_is_60 _
              (RateLimiter.is_allowed free_tier) (fun _ => []) 30
              "Build a login button" client_ip after_ten H) as (H1 & H2 & _).
  split; [exact H1|exact H2].
Defined.

(** Scenario A on the modelled run, with a classifier that timed out. *)
Example scenario_A :
  Pipeline.run collaborators_timeout "hello"
  = [ Pipeline.pipeline_started;
      Pipeline.intent_classified Pipeline.Conversational;
      Pipeline.content_delta "Hello";
      Pipeline.pipeline_completed true ].
Proof. reflexivity. Qed.

Lemma classify_fails_closed_witness :
  Pipeline.classify (Pipeline.classifier collaborators_timeout) "hello"
  = Pipeline.Conversational /\
  Pipeline.run collaborators_timeout "hello"
  = Pipeline.run
      (Pipeline.with_classifier (fun _ => Pipeline.Produced "chat")
         collaborators_timeout) "hello".
Proof.
  destruct (classify_fails_closed collaborators_timeout "hello")
    as (_ & _ & _ & H).
  apply H. simpl. discriminate.
Defined.

(** C8, the claim as stated fails: a frame whose object has the
    discriminant [telemetry.ping] goes through the switch without any
    effect: the state, the console and the accumulated response are
    what they were, and nothing reports a violation. *)
Lemma unknown_discriminant_silently_dropped :
  ~ In "telemetry.ping" AgentStreamEvent_discriminants /\
  UseAgent.read_loop (fun _ => 0) parse_ping "response-0" "" ""
    (UseAgent.read_value (UseAgent.frame ping_json) UseAgent.read_done) idle
  = (UseAgent.Normal tt, idle).
Proof. split; [simpl; intuition discriminate|vm_compute; reflexivity]. Qed.

Lemma unhandled_event_is_ignored_witness :
  ~ In (UseAgent.event_of
          (UseAgent.Typed (code_completed None (Some "generation failed"))))
      UseAgent.switch_cases /\
  UseAgent.setState
    (UseAgent.on_event (fun _ => 0)
       (UseAgent.Typed (code_completed None (Some "generation failed")))
       "response-0" "") idle
  = (UseAgent.Normal "", idle).
Proof.
  assert (H : ~ In (UseAgent.event_of
                      (UseAgent.Typed
                         (code_completed None (Some "generation failed"))))
                  UseAgent.switch_cases).
  { simpl. intuition discriminate. }
  split; [exact H|].
  exact (unhandled_event_is_ignored (fun _ => 0)
           (UseAgent.Typed (code_completed None (Some "generation failed")))
           "response-0" "" idle H).
Defined.


End Instances.
